(** * The upload-and-render controller of [static/script.js]

    A shallow embedding of the submit handler and of [renderRecipe], and
    the properties of one submission cycle.

    The script reads a parsed JSON document and writes to five page
    elements.  JavaScript values are embedded as the inductive [value],
    statements that may throw and that mutate the page live in the monad
    [M] (state plus exceptions), and every write to the page or to the
    network is recorded, in program order, in a log of [effect]s. *)

From Stdlib Require Import String Ascii List Bool Arith Lia.
From Stdlib Require Import Decimal DecimalNat DecimalString.
Import ListNotations.
Local Open Scope string_scope.
Set Warnings "-register-all".

(* ================================================================== *)
(** * Strings *)
(* ================================================================== *)

Module Str.

(** The empty string and the two characters that a string literal of
    this file does not spell out. *)
Definition empty : string := EmptyString.
Definition dquote : string := String (ascii_of_nat 34) EmptyString.
Definition newline : string := String (ascii_of_nat 10) EmptyString.

(** [Array.prototype.join] with the empty separator on an array of
    strings. *)
Definition join_empty (l : list string) : string := String.concat empty l.

(** [sub] occurs in [s]. *)
Definition occurs_in (sub s : string) : Prop :=
  exists before after, s = before ++ sub ++ after.

End Str.

(* ================================================================== *)
(** * JavaScript values, as [JSON.parse] builds them *)
(* ================================================================== *)

Module JS.

(** A Number is carried by the text that [Number::toString] gives for
    it (["0"] for both zeros): the script observes a number through
    [ToString] and [ToBoolean] only.  A string is a sequence of
    characters; the script never looks inside one, it only tests a
    length against zero.  An object is the list of its own properties;
    [own] reads the first entry of a key. *)
Inductive value : Type :=
| VUndefined
| VNull
| VBool (b : bool)
| VNum (repr : string)
| VStr (s : string)
| VArr (elems : list value)
| VObj (props : list (string * value)).

Inductive error : Type :=
| TypeError
| SyntaxError
| DOMException (name : string).

Inductive result (A : Type) : Type :=
| Ok (a : A)
| Throw (e : error).
Arguments Ok {A} a.
Arguments Throw {A} e.

Definition nat_repr (n : nat) : string :=
  NilEmpty.string_of_uint (Nat.to_uint n).

Fixpoint own (props : list (string * value)) (k : string) : value :=
  match props with
  | [] => VUndefined
  | (k', v) :: rest => if String.eqb k' k then v else own rest k
  end.

Fixpoint has_own (props : list (string * value)) (k : string) : bool :=
  match props with
  | [] => false
  | (k', _) :: rest => String.eqb k' k || has_own rest k
  end.

(** [v.k] for the keys the script reads: [ingredients], [recipes],
    [title], [short_description], [ingredients_used], [steps] and
    [length].  None of them is an index, and no built-in prototype
    defines one of them, [length] of a string or an array apart. *)
Definition Get (v : value) (k : string) : result value :=
  match v with
  | VUndefined | VNull => Throw TypeError
  | VBool _ | VNum _ => Ok VUndefined
  | VStr s =>
      if String.eqb k "length" then Ok (VNum (nat_repr (String.length s)))
      else Ok VUndefined
  | VArr elems =>
      if String.eqb k "length" then Ok (VNum (nat_repr (List.length elems)))
      else Ok VUndefined
  | VObj props => Ok (own props k)
  end.

Definition ToBoolean (v : value) : bool :=
  match v with
  | VUndefined | VNull => false
  | VBool b => b
  | VNum repr => negb (String.eqb repr "0" || String.eqb repr "NaN")
  | VStr s => negb (String.eqb s Str.empty)
  | VArr _ | VObj _ => true
  end.

(** [ToString], as a template literal applies it to a substitution.
    An array goes through [Array.prototype.join] with a comma, where
    [undefined] and [null] elements give the empty string.  An object
    gives ["[object Object]"] through [Object.prototype.toString],
    unless an own [toString] property shadows it: a parsed property is
    never callable, [valueOf] then returns the object itself and the
    conversion throws. *)
Fixpoint ToString (v : value) : result string :=
  match v with
  | VUndefined => Ok "undefined"
  | VNull => Ok "null"
  | VBool true => Ok "true"
  | VBool false => Ok "false"
  | VNum repr => Ok repr
  | VStr s => Ok s
  | VArr elems =>
      let element (x : value) : result string :=
        match x with
        | VUndefined | VNull => Ok Str.empty
        | _ => ToString x
        end in
      (fix join_comma (l : list value) : result string :=
         match l with
         | [] => Ok Str.empty
         | x :: rest =>
             match element x with
             | Throw e => Throw e
             | Ok s =>
                 match rest with
                 | [] => Ok s
                 | _ :: _ =>
                     match join_comma rest with
                     | Throw e => Throw e
                     | Ok r => Ok (s ++ "," ++ r)
                     end
                 end
             end
         end) elems
  | VObj props =>
      if has_own props "toString" then Throw TypeError
      else Ok "[object Object]"
  end.

End JS.
Export JS.

(* ================================================================== *)
(** * The page, the network and the monad of statements *)
(* ================================================================== *)

Module Dom.

(** The elements the script looks up by id: one status line, and for
    each of ingredients and recipes a section and a list container. *)
Inductive section : Type := ingredientsSection | recipesSection.
Inductive container : Type := ingredientsList | recipesList.

(** A selected file, as the file input reports it. *)
Record File : Type := mkFile {
  file_name : string;
  file_type : string;
  file_bytes : list Byte.byte
}.

(** [FormData]: the entries in the order of the [append] calls. *)
Definition FormData : Type := list (string * File).

Definition FormData_append (fd : FormData) (name : string) (f : File)
  : FormData :=
  (fd ++ [(name, f)])%list.

(** The second argument of [fetch]: the script sets [method] and [body]
    and nothing else. *)
Record RequestInit : Type := mkInit {
  method : string;
  body : FormData
}.

(** What [fetch] settles to.  [json] is what [res.json()] settles to:
    the parsed body, or the rejection of the parse. *)
Record Response : Type := mkResponse {
  status : nat;
  json : result value
}.

Inductive settled : Type :=
| Rejected (reason : error)
| Fulfilled (res : Response).

(** The server and the network, seen from the script. *)
Definition Network : Type := string -> RequestInit -> settled.

(** What the script writes, where it writes it. *)
Record Page : Type := mkPage {
  statusDiv_textContent : string;
  ingredientsSection_classList : list string;
  ingredientsList_innerHTML : string;
  recipesSection_classList : list string;
  recipesList_innerHTML : string
}.

Definition classList (p : Page) (s : section) : list string :=
  match s with
  | ingredientsSection => ingredientsSection_classList p
  | recipesSection => recipesSection_classList p
  end.

Definition innerHTML (p : Page) (c : container) : string :=
  match c with
  | ingredientsList => ingredientsList_innerHTML p
  | recipesList => recipesList_innerHTML p
  end.

(** A section is shown unless its class list holds [hidden]. *)
Definition hidden (p : Page) (s : section) : bool :=
  existsb (String.eqb "hidden") (classList p s).

(** [DOMTokenList.add] and [DOMTokenList.remove]. *)
Definition token_add (tok : string) (l : list string) : list string :=
  if existsb (String.eqb tok) l then l else (l ++ [tok])%list.

Definition token_remove (tok : string) (l : list string) : list string :=
  filter (fun t => negb (String.eqb tok t)) l.

(** The writes of the script, to the page, the event and the network. *)
Inductive effect : Type :=
| PreventDefault
| SetStatus (text : string)
| ClassListAdd (s : section) (tok : string)
| ClassListRemove (s : section) (tok : string)
| SetInnerHTML (c : container) (html : string)
| Fetch (url : string) (init : RequestInit).

Definition set_classList (s : section) (l : list string) (p : Page) : Page :=
  match s with
  | ingredientsSection =>
      mkPage (statusDiv_textContent p) l (ingredientsList_innerHTML p)
             (recipesSection_classList p) (recipesList_innerHTML p)
  | recipesSection =>
      mkPage (statusDiv_textContent p) (ingredientsSection_classList p)
             (ingredientsList_innerHTML p) l (recipesList_innerHTML p)
  end.

Definition apply_effect (e : effect) (p : Page) : Page :=
  match e with
  | PreventDefault => p
  | SetStatus text =>
      mkPage text (ingredientsSection_classList p)
             (ingredientsList_innerHTML p)
             (recipesSection_classList p) (recipesList_innerHTML p)
  | ClassListAdd s tok => set_classList s (token_add tok (classList p s)) p
  | ClassListRemove s tok =>
      set_classList s (token_remove tok (classList p s)) p
  | SetInnerHTML ingredientsList html =>
      mkPage (statusDiv_textContent p) (ingredientsSection_classList p)
             html (recipesSection_classList p) (recipesList_innerHTML p)
  | SetInnerHTML recipesList html =>
      mkPage (statusDiv_textContent p) (ingredientsSection_classList p)
             (ingredientsList_innerHTML p) (recipesSection_classList p) html
  | Fetch _ _ => p
  end.

(** The state a statement runs in: the page, and the effects so far,
    oldest first. *)
Record World : Type := mkWorld {
  page : Page;
  log : list effect
}.

(** Statements: they return or throw, and leave a world behind. *)
Definition M (A : Type) : Type := World -> result A * World.

Definition ret {A : Type} (a : A) : M A := fun w => (Ok a, w).

Definition throw {A : Type} (e : error) : M A := fun w => (Throw e, w).

Definition bind {A B : Type} (c : M A) (k : A -> M B) : M B :=
  fun w =>
    match c w with
    | (Ok a, w') => k a w'
    | (Throw e, w') => (Throw e, w')
    end.

Definition lift {A : Type} (r : result A) : M A :=
  match r with
  | Ok a => ret a
  | Throw e => throw e
  end.

Definition perform (e : effect) : M unit :=
  fun w => (Ok tt, mkWorld (apply_effect e (page w)) (log w ++ [e])%list).

Definition run_effects (es : list effect) (w : World) : World :=
  mkWorld (fold_left (fun p e => apply_effect e p) es (page w))
          (log w ++ es)%list.

End Dom.
Export Dom.

Declare Scope js_scope.
Delimit Scope js_scope with js.
Notation "x <- c ;; k" := (bind c (fun x => k))
  (at level 61, c at next level, right associativity) : js_scope.
Notation "c ;; k" := (bind c (fun _ => k))
  (at level 61, right associativity) : js_scope.
Local Open Scope js_scope.

(* ================================================================== *)
(** * The script *)
(* ================================================================== *)

Module Script.

(** [Array.prototype.map] called as a method of [v].  A parsed value
    that is not an array has no callable [map]: reading it from
    [undefined] or [null] throws, calling it on the others throws. *)
Fixpoint mapM {A B : Type} (f : A -> M B) (l : list A) : M (list B) :=
  match l with
  | [] => ret []
  | x :: rest => y <- f x ;; ys <- mapM f rest ;; ret (y :: ys)
  end.

Definition Array_map {B : Type} (f : value -> M B) (v : value)
  : M (list B) :=
  match v with
  | VArr elems => mapM f elems
  | _ => throw TypeError
  end.

(** [fetch(url, init)]: the request goes out, the promise settles. *)
Definition fetch (net : Network) (url : string) (init : RequestInit)
  : M Response :=
  perform (Fetch url init) ;;
  match net url init with
  | Rejected reason => throw reason
  | Fulfilled res => ret res
  end.

(** [i => `<span class="pill">${i}</span>`] *)
Definition pill_open : string :=
  "<span class=" ++ Str.dquote ++ "pill" ++ Str.dquote ++ ">".

Definition pill (i : value) : M string :=
  s <- lift (ToString i) ;;
  ret (pill_open ++ s ++ "</span>").

(** [i => `<li>${i}</li>`] *)
Definition li (i : value) : M string :=
  s <- lift (ToString i) ;;
  ret ("<li>" ++ s ++ "</li>").

(** The template of [renderRecipe], around its four substitutions. *)
Definition recipe_template (title desc used steps : string) : string :=
  Str.newline ++
  "    <div class=" ++ Str.dquote ++ "recipe-card" ++ Str.dquote ++ ">"
    ++ Str.newline ++
  "      <h3>" ++ title ++ "</h3>" ++ Str.newline ++
  "      <p>" ++ desc ++ "</p>" ++ Str.newline ++
  "      <h4>Ingredients used</h4>" ++ Str.newline ++
  "      <ul>" ++ Str.newline ++
  "        " ++ used ++ Str.newline ++
  "      </ul>" ++ Str.newline ++
  "      <h4>Steps</h4>" ++ Str.newline ++
  "      <ol>" ++ Str.newline ++
  "        " ++ steps ++ Str.newline ++
  "      </ol>" ++ Str.newline ++
  "    </div>" ++ Str.newline ++
  "  ".

Definition renderRecipe (recipe : value) : M string :=
  title <- lift (Get recipe "title") ;;
  title <- lift (ToString title) ;;
  desc <- lift (Get recipe "short_description") ;;
  desc <- lift (ToString desc) ;;
  used <- lift (Get recipe "ingredients_used") ;;
  used <- Array_map li used ;;
  steps <- lift (Get recipe "steps") ;;
  steps <- Array_map li steps ;;
  ret (recipe_template title desc (Str.join_empty used)
                       (Str.join_empty steps)).

(** The status line while the request is out. *)
Definition analyzing : string := "Analyzing…".

(** The submit handler, for the files of the file input and a network.
    The handler is an [async] function: what it throws is the rejection
    of the promise it returns, which the form does not observe.  The two
    [await]s receive what the network settles to. *)
Definition on_submit (files : list File) (net : Network) : M unit :=
  perform PreventDefault ;;
  match nth_error files 0 with
  | None => ret tt
  | Some file =>
      let formData := FormData_append [] "image" file in
      perform (SetStatus analyzing) ;;
      perform (ClassListAdd ingredientsSection "hidden") ;;
      perform (ClassListAdd recipesSection "hidden") ;;
      res <- fetch net "/analyze" (mkInit "POST" formData) ;;
      data <- lift (json res) ;;
      ingredients <- lift (Get data "ingredients") ;;
      recipes <- lift (Get data "recipes") ;;
      len <- lift (Get ingredients "length") ;;
      (if ToBoolean len then
         perform (ClassListRemove ingredientsSection "hidden") ;;
         pills <- Array_map pill ingredients ;;
         perform (SetInnerHTML ingredientsList (Str.join_empty pills))
       else ret tt) ;;
      len <- lift (Get recipes "length") ;;
      (if ToBoolean len then
         perform (ClassListRemove recipesSection "hidden") ;;
         cards <- Array_map renderRecipe recipes ;;
         perform (SetInnerHTML recipesList (Str.join_empty cards))
       else ret tt) ;;
      perform (SetStatus Str.empty)
  end.

End Script.
Export Script.

(* ================================================================== *)
(** * The response contract *)
(* ================================================================== *)

Module Contract.

(** The records the script destructures: the keys are those it reads. *)
Record Recipe : Type := mkRecipe {
  title : string;
  short_description : string;
  ingredients_used : list string;
  steps : list string
}.

Record AnalysisResponse : Type := mkAnalysis {
  ingredients : list string;
  recipes : list Recipe
}.

(** The values that [JSON.parse] builds for them. *)
Definition json_of_strings (l : list string) : value := VArr (map VStr l).

Definition json_of_recipe (r : Recipe) : value :=
  VObj [ ("title", VStr (title r));
         ("short_description", VStr (short_description r));
         ("ingredients_used", json_of_strings (ingredients_used r));
         ("steps", json_of_strings (steps r)) ].

Definition json_of_response (a : AnalysisResponse) : value :=
  VObj [ ("ingredients", json_of_strings (ingredients a));
         ("recipes", VArr (map json_of_recipe (recipes a))) ].

End Contract.
Export Contract.

(* ================================================================== *)
(** * Markup, as the properties name it *)
(* ================================================================== *)

Module Markup.

(** An element without attributes. *)
Definition element (tag content : string) : string :=
  "<" ++ tag ++ ">" ++ content ++ "</" ++ tag ++ ">".

(** The badge of one ingredient: a [span] of class [pill]. *)
Definition badge (text : string) : string :=
  pill_open ++ text ++ "</span>".

(** The items of a list, one [li] each, nothing in between. *)
Definition items (l : list string) : string :=
  Str.join_empty (map (element "li") l).

(** The card of one recipe. *)
Definition card (r : Recipe) : string :=
  recipe_template (title r) (short_description r)
                  (items (ingredients_used r)) (items (steps r)).

(** What stands between the tags of a list of the card and its items. *)
Definition indented (content : string) : string :=
  Str.newline ++ "        " ++ content ++ Str.newline ++ "      ".

(** [markup] shows, in this order, the title as a heading, the short
    description as a paragraph, the ingredients used as an unordered
    list and the steps as an ordered list. *)
Definition reproduces (r : Recipe) (markup : string) : Prop :=
  exists s0 s1 s2 s3 s4,
    markup =
      s0 ++ element "h3" (title r) ++
      s1 ++ element "p" (short_description r) ++
      s2 ++ element "ul" (indented (items (ingredients_used r))) ++
      s3 ++ element "ol" (indented (items (steps r))) ++ s4.

End Markup.
Export Markup.

(* ================================================================== *)
(** * One submission cycle *)
(* ================================================================== *)

Module Cycle.

(** The request of the script for a selected file. *)
Definition analyze_init (file : File) : RequestInit :=
  mkInit "POST" [("image", file)].

(** What the handler does up to and including the call of [fetch]. *)
Definition before_fetch : list effect :=
  [ PreventDefault;
    SetStatus analyzing;
    ClassListAdd ingredientsSection "hidden";
    ClassListAdd recipesSection "hidden" ].

Definition prologue (file : File) : list effect :=
  (before_fetch ++ [Fetch "/analyze" (analyze_init file)])%list.

(** What it does with a response of the contract. *)
Definition show_ingredients (l : list string) : list effect :=
  match l with
  | [] => []
  | _ :: _ =>
      [ ClassListRemove ingredientsSection "hidden";
        SetInnerHTML ingredientsList (Str.join_empty (map badge l)) ]
  end.

Definition show_recipes (l : list Recipe) : list effect :=
  match l with
  | [] => []
  | _ :: _ =>
      [ ClassListRemove recipesSection "hidden";
        SetInnerHTML recipesList (Str.join_empty (map card l)) ]
  end.

Definition rendering (a : AnalysisResponse) : list effect :=
  (show_ingredients (ingredients a) ++ show_recipes (recipes a)
   ++ [SetStatus Str.empty])%list.

Definition is_fetch (e : effect) : bool :=
  match e with
  | Fetch _ _ => true
  | _ => false
  end.

(** A statement that leaves the world as it found it, and whose result
    does not depend on the world. *)
Definition stateless {A : Type} (c : M A) : Prop :=
  exists r, forall w, c w = (r, w).

(** A statement whose effects are all of one kind. *)
Definition emits {A : Type} (P : effect -> Prop) (c : M A) : Prop :=
  forall w, exists es, snd (c w) = run_effects es w /\ Forall P es.

(** The handler from the point where the parsed body is at hand: the
    statements after the second [await]. *)
Definition render (data : value) : M unit :=
  ingredients <- lift (Get data "ingredients") ;;
  recipes <- lift (Get data "recipes") ;;
  len <- lift (Get ingredients "length") ;;
  (if ToBoolean len then
     perform (ClassListRemove ingredientsSection "hidden") ;;
     pills <- Array_map pill ingredients ;;
     perform (SetInnerHTML ingredientsList (Str.join_empty pills))
   else ret tt) ;;
  len <- lift (Get recipes "length") ;;
  (if ToBoolean len then
     perform (ClassListRemove recipesSection "hidden") ;;
     cards <- Array_map renderRecipe recipes ;;
     perform (SetInnerHTML recipesList (Str.join_empty cards))
   else ret tt) ;;
  perform (SetStatus Str.empty).

(** A network that answers every request with one parsed body, and one
    that rejects every request. *)
Definition answers (code : nat) (parsed : result value) : Network :=
  fun _ _ => Fulfilled (mkResponse code parsed).

Definition rejects (reason : error) : Network :=
  fun _ _ => Rejected reason.

End Cycle.
Export Cycle.

(* ================================================================== *)
(** * Sample inputs *)
(* ================================================================== *)

Module Samples.

Definition photo : File := mkFile "lunch.jpg" "image/jpeg" [].

(** The page as it loads: an empty status line, both sections hidden,
    both lists empty. *)
Definition fresh_page : Page :=
  mkPage Str.empty ["section"; "hidden"] Str.empty
         ["section"; "hidden"] Str.empty.

Definition start : World := mkWorld fresh_page [].

Definition pancakes : Recipe :=
  mkRecipe "Pancakes" "Fluffy." ["egg"; "flour"] ["Mix"; "Cook"].

Definition eggs_and_flour : AnalysisResponse :=
  mkAnalysis ["egg"; "flour"] [].

Definition pancakes_only : AnalysisResponse :=
  mkAnalysis [] [pancakes].

Definition both_empty : AnalysisResponse := mkAnalysis [] [].



(** A body that parses, with ingredients and without a [recipes] key. *)
Definition no_recipes_key : value :=
  VObj [("ingredients", json_of_strings ["egg"])].

End Samples.
Export Samples.

(* ================================================================== *)
(** * Frames and phases of a cycle *)
(* ================================================================== *)

Module Frames.

(** A statement that never reads the world: what it returns or throws
    and the effects it makes are the same wherever it runs. *)
Definition blind {A : Type} (c : M A) : Prop :=
  exists r es, forall w, c w = (r, run_effects es w).

(** An effect that, on a class list, adds or removes [hidden] only. *)
Definition hidden_token_only (e : effect) : Prop :=
  match e with
  | ClassListAdd _ tok | ClassListRemove _ tok => tok = "hidden"
  | _ => True
  end.

(** An effect that is not a write to the status line. *)
Definition leaves_status (e : effect) : Prop :=
  match e with
  | SetStatus _ => False
  | _ => True
  end.

(** A statement whose effects satisfy [P], and that makes [last] as its
    final effect when, and only when, it returns. *)
Definition closes {A : Type} (P : effect -> Prop) (last : effect) (c : M A)
  : Prop :=
  forall w, exists es,
    Forall P es /\
    ((exists a, c w = (Ok a, run_effects (es ++ [last]) w)) \/
     (exists e, c w = (Throw e, run_effects es w))).

(** A statement that throws nothing but a [TypeError]. *)
Definition throws_TypeError_only {A : Type} (c : M A) : Prop :=
  forall w e, fst (c w) = Throw e -> e = TypeError.

(** The handler up to its first [await], for a selected file. *)
Definition submit_begin (file : File) : M unit :=
  perform PreventDefault ;;
  perform (SetStatus analyzing) ;;
  perform (ClassListAdd ingredientsSection "hidden") ;;
  perform (ClassListAdd recipesSection "hidden") ;;
  perform (Fetch "/analyze" (analyze_init file)).

(** A continuation run on its own turn of the event loop: what it
    throws rejects its own promise and stops nothing else. *)
Definition detached {A : Type} (c : M A) : M unit :=
  fun w => (Ok tt, snd (c w)).

(** Two cycles that overlap: the second submission comes while the
    first request is out, the second body is parsed first and the first
    body last. *)
Definition overlapped (file1 file2 : File) (data1 data2 : value) : M unit :=
  submit_begin file1 ;;
  submit_begin file2 ;;
  detached (render data2) ;;
  detached (render data1).

End Frames.
Export Frames.

(* ================================================================== *)
(** * Strings and lists of strings *)
(* ================================================================== *)

Lemma append_assoc (a b c : string) : (a ++ b) ++ c = a ++ (b ++ c).
Proof.
  induction a as [|ch a IH]; simpl; [reflexivity | now rewrite IH].
Qed.

Lemma append_empty_r (a : string) : a ++ EmptyString = a.
Proof.
  induction a as [|ch a IH]; simpl; [reflexivity | now rewrite IH].
Qed.

Lemma join_empty_cons (x : string) (l : list string) :
  Str.join_empty (x :: l) = x ++ Str.join_empty l.
Proof.
  unfold Str.join_empty, Str.empty.
  destruct l as [|y l]; simpl.
  - now rewrite append_empty_r.
  - reflexivity.
Qed.

Lemma join_empty_app (l1 l2 : list string) :
  Str.join_empty (l1 ++ l2) = Str.join_empty l1 ++ Str.join_empty l2.
Proof.
  induction l1 as [|x l1 IH].
  - reflexivity.
  - rewrite <- app_comm_cons, !join_empty_cons, IH.
    now rewrite append_assoc.
Qed.

Lemma occurs_in_join (f : string -> string) (x : string) (l : list string) :
  In x l -> Str.occurs_in (f x) (Str.join_empty (map f l)).
Proof.
  intros Hin. apply in_split in Hin. destruct Hin as (l1 & l2 & ->).
  exists (Str.join_empty (map f l1)), (Str.join_empty (map f l2)).
  now rewrite map_app, join_empty_app, map_cons, join_empty_cons.
Qed.

(* ================================================================== *)
(** * Lengths and their truth value *)
(* ================================================================== *)

Lemma nat_repr_succ (n : nat) :
  nat_repr (S n) <> "0" /\ nat_repr (S n) <> "NaN".
Proof.
  unfold nat_repr. split; intros H.
  - assert (E : NilEmpty.uint_of_string (NilEmpty.string_of_uint (Nat.to_uint (S n)))
                = NilEmpty.uint_of_string "0") by now rewrite H.
    rewrite NilEmpty.usu in E. simpl in E.
    injection E as E.
    apply (Unsigned.to_uint_inj (S n) 0) in E. discriminate E.
  - assert (E : NilEmpty.uint_of_string (NilEmpty.string_of_uint (Nat.to_uint (S n)))
                = NilEmpty.uint_of_string "NaN") by now rewrite H.
    rewrite NilEmpty.usu in E. simpl in E. discriminate E.
Qed.

Lemma ToBoolean_length (n : nat) :
  ToBoolean (VNum (nat_repr n)) = negb (Nat.eqb n 0).
Proof.
  destruct n as [|n]; [reflexivity|].
  destruct (nat_repr_succ n) as [H0 HN]. simpl ToBoolean.
  apply String.eqb_neq in H0, HN.
  change (nat_repr (S n) =? "0")%string with (String.eqb (nat_repr (S n)) "0").
  now rewrite H0, HN.
Qed.

(* ================================================================== *)
(** * Class lists *)
(* ================================================================== *)

Lemma token_add_holds (tok : string) (l : list string) :
  existsb (String.eqb tok) (token_add tok l) = true.
Proof.
  unfold token_add.
  destruct (existsb (String.eqb tok) l) eqn:E; [exact E|].
  rewrite existsb_app. simpl. now rewrite String.eqb_refl, orb_true_r.
Qed.

Lemma token_remove_gone (tok : string) (l : list string) :
  existsb (String.eqb tok) (token_remove tok l) = false.
Proof.
  unfold token_remove. induction l as [|t l IH]; [reflexivity|].
  simpl. destruct (String.eqb tok t) eqn:E; simpl; [exact IH|].
  now rewrite E, IH.
Qed.

(* ================================================================== *)
(** * Laws of the monad and of the log *)
(* ================================================================== *)

Lemma run_effects_nil (w : World) : run_effects [] w = w.
Proof.
  destruct w as [p l]. unfold run_effects. simpl. now rewrite app_nil_r.
Qed.

Lemma run_effects_app (es1 es2 : list effect) (w : World) :
  run_effects (es1 ++ es2) w = run_effects es2 (run_effects es1 w).
Proof.
  unfold run_effects. simpl. now rewrite fold_left_app, app_assoc.
Qed.

Lemma perform_run (e : effect) (w : World) :
  perform e w = (Ok tt, run_effects [e] w).
Proof. reflexivity. Qed.

Lemma bind_perform {A : Type} (e : effect) (k : unit -> M A) (w : World) :
  bind (perform e) k w = k tt (run_effects [e] w).
Proof. reflexivity. Qed.

Lemma bind_ok {A B : Type} (c : M A) (k : A -> M B) (w w' : World) (a : A) :
  c w = (Ok a, w') -> bind c k w = k a w'.
Proof. intros H. unfold bind. now rewrite H. Qed.

Lemma bind_throw {A B : Type} (c : M A) (k : A -> M B) (w w' : World)
      (e : error) :
  c w = (Throw e, w') -> bind c k w = (Throw e, w').
Proof. intros H. unfold bind. now rewrite H. Qed.

Lemma log_run_effects (es : list effect) (w : World) :
  log (run_effects es w) = (log w ++ es)%list.
Proof. reflexivity. Qed.

(* ================================================================== *)
(** * Stateless statements *)
(* ================================================================== *)

Lemma stateless_ret {A : Type} (a : A) : stateless (ret a).
Proof. exists (Ok a). reflexivity. Qed.

Lemma stateless_throw {A : Type} (e : error) : stateless (@throw A e).
Proof. exists (Throw e). reflexivity. Qed.

Lemma stateless_lift {A : Type} (r : result A) : stateless (lift r).
Proof. destruct r; [apply stateless_ret | apply stateless_throw]. Qed.

Lemma stateless_bind {A B : Type} (c : M A) (k : A -> M B) :
  stateless c -> (forall a, stateless (k a)) -> stateless (bind c k).
Proof.
  intros [r Hc] Hk. destruct r as [a|e].
  - destruct (Hk a) as [r' Hr']. exists r'. intros w.
    unfold bind. now rewrite Hc, Hr'.
  - exists (Throw e). intros w. unfold bind. now rewrite Hc.
Qed.

Lemma stateless_mapM {A B : Type} (f : A -> M B) (l : list A) :
  (forall x, stateless (f x)) -> stateless (mapM f l).
Proof.
  intros Hf. induction l as [|x l IH]; simpl.
  - apply stateless_ret.
  - apply stateless_bind; [apply Hf|]. intros y.
    apply stateless_bind; [exact IH|]. intros ys. apply stateless_ret.
Qed.

Lemma stateless_Array_map {B : Type} (f : value -> M B) (v : value) :
  (forall x, stateless (f x)) -> stateless (Array_map f v).
Proof.
  intros Hf. destruct v; simpl;
    try apply stateless_throw. now apply stateless_mapM.
Qed.

Lemma stateless_li (i : value) : stateless (li i).
Proof.
  unfold li. apply stateless_bind; [apply stateless_lift|].
  intros s. apply stateless_ret.
Qed.

Lemma stateless_pill (i : value) : stateless (pill i).
Proof.
  unfold pill. apply stateless_bind; [apply stateless_lift|].
  intros s. apply stateless_ret.
Qed.

Lemma stateless_renderRecipe (recipe : value) : stateless (renderRecipe recipe).
Proof.
  unfold renderRecipe.
  repeat (apply stateless_bind;
          [first [apply stateless_lift
                 | apply stateless_Array_map; apply stateless_li] | intros ?]).
  apply stateless_ret.
Qed.

(* ================================================================== *)
(** * The script on values of the contract *)
(* ================================================================== *)

Lemma mapM_pill (l : list string) (w : World) :
  mapM pill (map VStr l) w = (Ok (map badge l), w).
Proof.
  induction l as [|s l IH]; [reflexivity|].
  simpl. unfold bind at 1. simpl. unfold bind at 1. now rewrite IH.
Qed.

Lemma mapM_li (l : list string) (w : World) :
  mapM li (map VStr l) w = (Ok (map (element "li") l), w).
Proof.
  induction l as [|s l IH]; [reflexivity|].
  simpl. unfold bind at 1. simpl. unfold bind at 1. now rewrite IH.
Qed.

Lemma renderRecipe_card (r : Recipe) (w : World) :
  renderRecipe (json_of_recipe r) w = (Ok (card r), w).
Proof.
  unfold renderRecipe, json_of_recipe, json_of_strings.
  unfold bind, lift, Array_map. simpl.
  now rewrite !mapM_li.
Qed.

Lemma mapM_renderRecipe (l : list Recipe) (w : World) :
  mapM renderRecipe (map json_of_recipe l) w = (Ok (map card l), w).
Proof.
  induction l as [|r l IH]; [reflexivity|].
  cbn [map mapM]. unfold bind at 1. rewrite renderRecipe_card.
  unfold bind at 1. now rewrite IH.
Qed.

(* ================================================================== *)
(** * The effects of a statement *)
(* ================================================================== *)

Lemma emits_stateless {A : Type} (P : effect -> Prop) (c : M A) :
  stateless c -> emits P c.
Proof.
  intros [r Hc] w. exists []. rewrite Hc, run_effects_nil. now split.
Qed.

Lemma emits_perform (P : effect -> Prop) (e : effect) :
  P e -> emits P (perform e).
Proof.
  intros He w. exists [e]. split; [reflexivity | now constructor].
Qed.

Lemma emits_bind {A B : Type} (P : effect -> Prop) (c : M A) (k : A -> M B) :
  emits P c -> (forall a, emits P (k a)) -> emits P (bind c k).
Proof.
  intros Hc Hk w. destruct (Hc w) as (es & Hw & Hes).
  unfold bind. destruct (c w) as [[a|e] w'] eqn:E; simpl in Hw; subst w'.
  - destruct (Hk a (run_effects es w)) as (es' & Hw' & Hes').
    exists (es ++ es')%list. rewrite run_effects_app. split; [exact Hw'|].
    apply Forall_app. now split.
  - exists es. now split.
Qed.

Lemma emits_render (data : value) :
  emits (fun e => is_fetch e = false) (render data).
Proof.
  unfold render.
  repeat first
    [ apply emits_bind; [|intros ?]
    | apply emits_stateless; apply stateless_lift
    | apply emits_stateless; apply stateless_ret
    | apply emits_stateless; apply stateless_Array_map; apply stateless_pill
    | apply emits_stateless; apply stateless_Array_map;
      apply stateless_renderRecipe
    | apply emits_perform; reflexivity
    | match goal with |- emits _ (if ?b then _ else _) => destruct b end ].
Qed.

(* ================================================================== *)
(** * The handler, step by step *)
(* ================================================================== *)

Lemma on_submit_no_file (net : Network) (w : World) :
  on_submit [] net w = (Ok tt, run_effects [PreventDefault] w).
Proof. reflexivity. Qed.

Lemma on_submit_selected (file : File) (more : list File) (net : Network)
      (w : World) :
  on_submit (file :: more) net w =
  match net "/analyze" (analyze_init file) with
  | Rejected reason => (Throw reason, run_effects (prologue file) w)
  | Fulfilled res =>
      match json res with
      | Throw e => (Throw e, run_effects (prologue file) w)
      | Ok data => render data (run_effects (prologue file) w)
      end
  end.
Proof.
  unfold on_submit. cbn [nth_error].
  rewrite !bind_perform. unfold fetch.
  change (FormData_append [] "image" file) with [("image", file)].
  change (mkInit "POST" [("image", file)]) with (analyze_init file).
  unfold bind at 1. rewrite bind_perform, <- !run_effects_app.
  change ([PreventDefault] ++ _)%list with (prologue file).
  destruct (net "/analyze" (analyze_init file)) as [reason|res];
    [reflexivity|].
  unfold ret at 1. unfold bind at 1.
  destruct (json res) as [data|e]; reflexivity.
Qed.

Lemma render_contract (a : AnalysisResponse) (w : World) :
  render (json_of_response a) w = (Ok tt, run_effects (rendering a) w).
Proof.
  unfold render, rendering, json_of_response, json_of_strings.
  destruct a as [ings recs]. cbn [ingredients recipes].
  unfold bind at 1. cbn [lift Get own String.eqb Ascii.eqb Bool.eqb ret].
  unfold bind at 1. cbn [lift Get own String.eqb Ascii.eqb Bool.eqb ret].
  rewrite run_effects_app.
  unfold bind at 1. cbn [lift Get String.eqb Ascii.eqb Bool.eqb ret].
  rewrite ToBoolean_length, length_map.
  assert (Hi : forall k : unit -> M unit,
             bind (if negb (Nat.eqb (List.length ings) 0)
                   then perform (ClassListRemove ingredientsSection "hidden") ;;
                        pills <- Array_map pill (VArr (map VStr ings)) ;;
                        perform (SetInnerHTML ingredientsList
                                              (Str.join_empty pills))
                   else ret tt) k w
             = k tt (run_effects (show_ingredients ings) w)).
  { intros k. destruct ings as [|i ings].
    - cbn [List.length Nat.eqb negb show_ingredients].
      now rewrite run_effects_nil.
    - cbn [List.length Nat.eqb negb show_ingredients].
      unfold bind at 1. rewrite bind_perform.
      unfold bind at 1. unfold Array_map. rewrite mapM_pill.
      rewrite perform_run, <- run_effects_app. reflexivity. }
  rewrite Hi. clear Hi.
  set (w1 := run_effects (show_ingredients ings) w).
  rewrite run_effects_app.
  unfold bind at 1. cbn [lift Get String.eqb Ascii.eqb Bool.eqb ret].
  rewrite ToBoolean_length, length_map.
  destruct recs as [|r recs].
  - cbn [List.length Nat.eqb negb show_recipes].
    unfold bind at 1. unfold ret at 1. rewrite run_effects_nil. reflexivity.
  - cbn [List.length Nat.eqb negb show_recipes].
    unfold bind at 1. rewrite bind_perform.
    unfold bind at 1. unfold Array_map. rewrite mapM_renderRecipe.
    rewrite perform_run, <- run_effects_app. reflexivity.
Qed.

(* ================================================================== *)
(** * The page after the prologue and after the rendering *)
(* ================================================================== *)

Lemma hidden_after_add (s : section) (p : Page) :
  hidden (apply_effect (ClassListAdd s "hidden") p) s = true.
Proof.
  unfold hidden. destruct s; cbn [apply_effect set_classList classList
    ingredientsSection_classList recipesSection_classList];
    apply token_add_holds.
Qed.

Lemma shown_after_remove (s : section) (p : Page) :
  hidden (apply_effect (ClassListRemove s "hidden") p) s = false.
Proof.
  unfold hidden. destruct s; cbn [apply_effect set_classList classList
    ingredientsSection_classList recipesSection_classList];
    apply token_remove_gone.
Qed.

Lemma page_before_fetch (w : World) :
  let p := page (run_effects before_fetch w) in
  statusDiv_textContent p = analyzing /\
  hidden p ingredientsSection = true /\
  hidden p recipesSection = true /\
  innerHTML p ingredientsList = innerHTML (page w) ingredientsList /\
  innerHTML p recipesList = innerHTML (page w) recipesList.
Proof.
  destruct w as [[st ic ih rc rh] l].
  cbn [before_fetch run_effects page fold_left].
  repeat split.
  - unfold hidden.
    cbn [apply_effect set_classList classList ingredientsSection_classList].
    apply token_add_holds.
  - apply hidden_after_add.
Qed.

Lemma page_after_prologue (file : File) (w : World) :
  page (run_effects (prologue file) w) = page (run_effects before_fetch w).
Proof.
  unfold prologue. rewrite run_effects_app. reflexivity.
Qed.

Lemma cycle_contract (file : File) (more : list File) (net : Network)
      (w : World) (res : Response) (a : AnalysisResponse) :
  net "/analyze" (analyze_init file) = Fulfilled res ->
  json res = Ok (json_of_response a) ->
  on_submit (file :: more) net w =
  (Ok tt, run_effects (rendering a) (run_effects (prologue file) w)).
Proof.
  intros Hnet Hjson.
  now rewrite on_submit_selected, Hnet, Hjson, render_contract.
Qed.

Lemma page_after_rendering (a : AnalysisResponse) (w : World) :
  let p := page (run_effects (rendering a) w) in
  statusDiv_textContent p = Str.empty /\
  hidden p ingredientsSection =
    match ingredients a with
    | [] => hidden (page w) ingredientsSection
    | _ :: _ => false
    end /\
  innerHTML p ingredientsList =
    match ingredients a with
    | [] => innerHTML (page w) ingredientsList
    | _ :: _ => Str.join_empty (map badge (ingredients a))
    end /\
  hidden p recipesSection =
    match recipes a with
    | [] => hidden (page w) recipesSection
    | _ :: _ => false
    end /\
  innerHTML p recipesList =
    match recipes a with
    | [] => innerHTML (page w) recipesList
    | _ :: _ => Str.join_empty (map card (recipes a))
    end.
Proof.
  destruct w as [[st ic ih rc rh] l]. destruct a as [ings recs].
  unfold rendering, hidden. cbn [ingredients recipes].
  destruct ings as [|i ings]; destruct recs as [|r recs];
    cbn [show_ingredients show_recipes app run_effects page fold_left
         apply_effect set_classList classList innerHTML
         statusDiv_textContent ingredientsSection_classList
         ingredientsList_innerHTML recipesSection_classList
         recipesList_innerHTML];
    repeat split; apply token_remove_gone.
Qed.

Lemma card_reproduces (r : Recipe) : reproduces r (card r).
Proof.
  exists (Str.newline ++ "    <div class=" ++ Str.dquote ++ "recipe-card"
            ++ Str.dquote ++ ">" ++ Str.newline ++ "      "),
         (Str.newline ++ "      "),
         (Str.newline ++ "      <h4>Ingredients used</h4>" ++ Str.newline
            ++ "      "),
         (Str.newline ++ "      <h4>Steps</h4>" ++ Str.newline ++ "      "),
         (Str.newline ++ "    </div>" ++ Str.newline ++ "  ").
  unfold card, recipe_template, element, indented.
  repeat rewrite append_assoc. reflexivity.
Qed.


Lemma own_absent (props : list (string * value)) (k : string) :
  has_own props k = false -> own props k = VUndefined.
Proof.
  induction props as [|[k' v] props IH]; [reflexivity|].
  simpl. destruct (String.eqb k' k); [discriminate | exact IH].
Qed.

Lemma render_without_recipes (props : list (string * value))
      (ings : list string) (w : World) :
  own props "ingredients" = json_of_strings ings ->
  ings <> [] ->
  has_own props "recipes" = false ->
  render (VObj props) w =
  (Throw TypeError, run_effects (show_ingredients ings) w).
Proof.
  intros Hi Hne Hr. apply own_absent in Hr.
  unfold render.
  unfold bind at 1. cbn [lift Get ret]. rewrite Hi.
  unfold bind at 1. cbn [lift Get ret]. rewrite Hr.
  unfold json_of_strings.
  unfold bind at 1. cbn [lift Get String.eqb Ascii.eqb Bool.eqb ret].
  rewrite ToBoolean_length, length_map.
  destruct ings as [|i ings]; [contradiction|].
  cbn [List.length Nat.eqb negb show_ingredients].
  unfold bind at 1. rewrite bind_perform.
  unfold bind at 1. unfold Array_map. rewrite mapM_pill.
  rewrite perform_run, <- run_effects_app. reflexivity.
Qed.

Lemma bind_returns {A B : Type} (c : M A) (k : A -> M B) (w w' : World)
      (b : B) :
  bind c k w = (Ok b, w') ->
  exists a w1, c w = (Ok a, w1) /\ k a w1 = (Ok b, w').
Proof.
  unfold bind. destruct (c w) as [[a|e] w1]; intros H.
  - exists a, w1. now split.
  - discriminate H.
Qed.

(** Whatever the parsed body is, the status line is cleared once the
    statements after the second [await] have run to their end. *)
Lemma render_returns_cleared (data : value) (w : World) :
  fst (render data w) = Ok tt ->
  statusDiv_textContent (page (snd (render data w))) = Str.empty.
Proof.
  destruct (render data w) as [r w'] eqn:E. cbn [fst snd]. intros ->.
  unfold render in E.
  repeat (apply bind_returns in E; destruct E as (? & ? & _ & E)).
  unfold perform in E. injection E as <-. reflexivity.
Qed.

(* ================================================================== *)
(** * Properties of a submission cycle *)
(* ================================================================== *)

(** C1.  When a file is selected, the handler hides both sections
    before it issues the request: its world is the one that the status
    write, the two [classList.add] calls and the call of [fetch] leave,
    in this order, followed by effects none of which is a request; both
    sections are hidden on the page of the handler at the call of
    [fetch].  The cycle issues exactly one request, a POST to [/analyze]
    whose form data holds the selected file under the one name
    [image]. *)
Theorem submit_hides_then_posts_once
        (file : File) (more : list File) (net : Network) (w : World) :
  hidden (page (run_effects before_fetch w)) ingredientsSection = true /\
  hidden (page (run_effects before_fetch w)) recipesSection = true /\
  In (ClassListAdd ingredientsSection "hidden") before_fetch /\
  In (ClassListAdd recipesSection "hidden") before_fetch /\
  Forall (fun e => is_fetch e = false) before_fetch /\
  exists later,
    snd (on_submit (file :: more) net w) =
      run_effects later
        (run_effects [Fetch "/analyze" (mkInit "POST" [("image", file)])]
           (run_effects before_fetch w)) /\
    log (snd (on_submit (file :: more) net w)) =
      (log w ++ before_fetch
             ++ [Fetch "/analyze" (mkInit "POST" [("image", file)])]
             ++ later)%list /\
    Forall (fun e => is_fetch e = false) later.
Proof.
  destruct (page_before_fetch w) as (_ & Hi & Hr & _).
  repeat split; try assumption.
  - simpl; tauto.
  - simpl; tauto.
  - repeat constructor.
  - assert (Hp : run_effects (prologue file) w =
                 run_effects
                   [Fetch "/analyze" (mkInit "POST" [("image", file)])]
                   (run_effects before_fetch w)).
    { unfold prologue. now rewrite run_effects_app. }
    rewrite on_submit_selected.
    destruct (net "/analyze" (analyze_init file)) as [reason|res].
    { exists []. cbn [snd]. rewrite run_effects_nil.
      split; [exact Hp|]. split; [|constructor].
      rewrite log_run_effects. reflexivity. }
    destruct (json res) as [data|e].
    + destruct (emits_render data (run_effects (prologue file) w))
        as (later & Hw & Hlater).
      exists later. split; [now rewrite Hw, Hp|]. split; [|exact Hlater].
      rewrite Hw, !log_run_effects, <- app_assoc. reflexivity.
    + exists []. cbn [snd]. rewrite run_effects_nil.
      split; [exact Hp|]. split; [|constructor].
      rewrite log_run_effects. reflexivity.
Qed.

(** C5.  With no file selected the handler returns at once: it sends no
    request, and it leaves the page, and so the text of the status line,
    as it was.  The only thing it has done is [preventDefault]. *)
Theorem no_file_is_silent (net : Network) (w : World) :
  fst (on_submit [] net w) = Ok tt /\
  log (snd (on_submit [] net w)) = (log w ++ [PreventDefault])%list /\
  page (snd (on_submit [] net w)) = page w /\
  statusDiv_textContent (page (snd (on_submit [] net w)))
  = statusDiv_textContent (page w).
Proof.
  rewrite on_submit_no_file. repeat split.
Qed.

(** C4.  When the request rejects, or the body of the response does not
    parse, nothing in the handler catches the failure: the handler ends
    by throwing it, the status line keeps the text it got before the
    request, both sections are hidden, neither list has been written,
    and the request is the last effect of the cycle. *)
Theorem failure_leaves_cycle_stuck
        (file : File) (more : list File) (net : Network) (w : World)
        (e : error) :
  net "/analyze" (analyze_init file) = Rejected e \/
  (exists res, net "/analyze" (analyze_init file) = Fulfilled res /\
               json res = Throw e) ->
  fst (on_submit (file :: more) net w) = Throw e /\
  statusDiv_textContent (page (snd (on_submit (file :: more) net w)))
  = analyzing /\
  hidden (page (snd (on_submit (file :: more) net w))) ingredientsSection
  = true /\
  hidden (page (snd (on_submit (file :: more) net w))) recipesSection
  = true /\
  innerHTML (page (snd (on_submit (file :: more) net w))) ingredientsList
  = innerHTML (page w) ingredientsList /\
  innerHTML (page (snd (on_submit (file :: more) net w))) recipesList
  = innerHTML (page w) recipesList /\
  log (snd (on_submit (file :: more) net w))
  = (log w ++ prologue file)%list.
Proof.
  intros H.
  assert (E : on_submit (file :: more) net w
              = (Throw e, run_effects (prologue file) w)).
  { rewrite on_submit_selected.
    destruct H as [H | (res & H & Hj)]; rewrite H; [reflexivity|].
    now rewrite Hj. }
  rewrite E. cbn [fst snd]. rewrite page_after_prologue.
  destruct (page_before_fetch w) as (Hs & Hi & Hr & Hil & Hrl).
  repeat split; assumption.
Qed.

Lemma failure_leaves_cycle_stuck_witness :
  (fst (on_submit [photo] (rejects TypeError) start) = Throw TypeError /\
   statusDiv_textContent
     (page (snd (on_submit [photo] (rejects TypeError) start))) = analyzing)
  /\
  (fst (on_submit [photo] (answers 502 (Throw SyntaxError)) start)
   = Throw SyntaxError /\
   statusDiv_textContent
     (page (snd (on_submit [photo] (answers 502 (Throw SyntaxError)) start)))
   = analyzing).
Proof.
  split.
  - destruct (failure_leaves_cycle_stuck photo [] (rejects TypeError) start
                TypeError) as (H1 & H2 & _).
    + left. reflexivity.
    + split; assumption.
  - destruct (failure_leaves_cycle_stuck photo []
                (answers 502 (Throw SyntaxError)) start SyntaxError)
      as (H1 & H2 & _).
    + right. exists (mkResponse 502 (Throw SyntaxError)).
      split; reflexivity.
    + split; assumption.
Defined.

(** C8.  [renderRecipe] is deterministic and has no side effect: on a
    Recipe record it returns its markup and leaves the page and the log
    untouched, the markup is the same in whatever world it is called,
    and two calls in a row return the same text twice. *)
Theorem renderRecipe_deterministic (r : Recipe) :
  exists markup,
    (forall w, renderRecipe (json_of_recipe r) w = (Ok markup, w)) /\
    (forall w,
        (first <- renderRecipe (json_of_recipe r) ;;
         second <- renderRecipe (json_of_recipe r) ;;
         ret (first, second)) w = (Ok (markup, markup), w)).
Proof.
  exists (card r). split.
  - apply renderRecipe_card.
  - intros w. unfold bind. now rewrite !renderRecipe_card.
Qed.





(** C6.  A cycle whose response parses to a response of the contract
    runs to its end and leaves the status line empty, whatever the two
    sequences hold, both empty included. *)
Theorem status_cleared_after_rendering
        (file : File) (more : list File) (net : Network) (w : World)
        (res : Response) (a : AnalysisResponse) :
  net "/analyze" (analyze_init file) = Fulfilled res ->
  json res = Ok (json_of_response a) ->
  fst (on_submit (file :: more) net w) = Ok tt /\
  statusDiv_textContent (page (snd (on_submit (file :: more) net w)))
  = Str.empty /\
  exists shown,
    log (snd (on_submit (file :: more) net w))
    = (log w ++ prologue file ++ shown ++ [SetStatus Str.empty])%list.
Proof.
  intros Hnet Hjson. rewrite (cycle_contract _ _ _ _ _ _ Hnet Hjson).
  cbn [fst snd].
  destruct (page_after_rendering a (run_effects (prologue file) w))
    as (Hs & _).
  repeat split; [exact Hs|].
  exists (show_ingredients (ingredients a) ++ show_recipes (recipes a))%list.
  rewrite !log_run_effects. unfold rendering.
  now rewrite <- !app_assoc.
Qed.

Lemma status_cleared_after_rendering_witness :
  fst (on_submit [photo] (answers 200 (Ok (json_of_response both_empty)))
                 start) = Ok tt /\
  statusDiv_textContent
    (page (snd (on_submit [photo]
                  (answers 200 (Ok (json_of_response both_empty))) start)))
  = Str.empty.
Proof.
  destruct (status_cleared_after_rendering photo []
              (answers 200 (Ok (json_of_response both_empty))) start
              (mkResponse 200 (Ok (json_of_response both_empty)))
              both_empty eq_refl eq_refl) as (H1 & H2 & _).
  split; [exact H1 | exact H2].
Defined.



(** C9.  The empty branch writes nothing: when the [ingredients] of the
    response are empty the markup of the ingredients list is what it was
    before the cycle, and the section is hidden; likewise for the
    [recipes] and the recipes list. *)
Theorem empty_sequence_keeps_old_markup
        (file : File) (more : list File) (net : Network) (w : World)
        (res : Response) (a : AnalysisResponse) :
  net "/analyze" (analyze_init file) = Fulfilled res ->
  json res = Ok (json_of_response a) ->
  (ingredients a = [] ->
   innerHTML (page (snd (on_submit (file :: more) net w))) ingredientsList
   = innerHTML (page w) ingredientsList /\
   hidden (page (snd (on_submit (file :: more) net w))) ingredientsSection
   = true) /\
  (recipes a = [] ->
   innerHTML (page (snd (on_submit (file :: more) net w))) recipesList
   = innerHTML (page w) recipesList /\
   hidden (page (snd (on_submit (file :: more) net w))) recipesSection
   = true).
Proof.
  intros Hnet Hjson. rewrite (cycle_contract _ _ _ _ _ _ Hnet Hjson).
  cbn [snd].
  destruct (page_after_rendering a (run_effects (prologue file) w))
    as (_ & Hih & Hil & Hrh & Hrl).
  rewrite page_after_prologue in Hih, Hil, Hrh, Hrl.
  destruct (page_before_fetch w) as (_ & Hi & Hr & Hli & Hlr).
  split; intros E; rewrite E in *; split; congruence.
Qed.

Lemma empty_sequence_keeps_old_markup_witness :
  innerHTML
    (page (snd (on_submit [photo]
                  (answers 200 (Ok (json_of_response both_empty)))
                  (snd (on_submit [photo]
                          (answers 200 (Ok (json_of_response eggs_and_flour)))
                          start))))) ingredientsList
  = badge "egg" ++ badge "flour" /\
  hidden
    (page (snd (on_submit [photo]
                  (answers 200 (Ok (json_of_response both_empty)))
                  (snd (on_submit [photo]
                          (answers 200 (Ok (json_of_response eggs_and_flour)))
                          start))))) ingredientsSection
  = true.
Proof.
  destruct (empty_sequence_keeps_old_markup photo []
              (answers 200 (Ok (json_of_response both_empty)))
              (snd (on_submit [photo]
                      (answers 200 (Ok (json_of_response eggs_and_flour)))
                      start))
              (mkResponse 200 (Ok (json_of_response both_empty)))
              both_empty eq_refl eq_refl) as [H _].
  destruct (H eq_refl) as [H1 H2]. split; [|exact H2].
  rewrite H1. reflexivity.
Defined.

(** C10.  A body that parses to an object with a non-empty array of
    ingredients and no [recipes] property is rendered in part: the
    ingredients section is shown and its list is written, then reading
    [length] of the missing [recipes] throws a [TypeError]; nothing
    catches it, the recipes section is hidden, the recipes list is what
    it was, and the status line keeps the text it got before the
    request. *)
Theorem missing_recipes_renders_half
        (file : File) (more : list File) (net : Network) (w : World)
        (res : Response) (props : list (string * value))
        (ings : list string) :
  net "/analyze" (analyze_init file) = Fulfilled res ->
  json res = Ok (VObj props) ->
  own props "ingredients" = json_of_strings ings ->
  ings <> [] ->
  has_own props "recipes" = false ->
  fst (on_submit (file :: more) net w) = Throw TypeError /\
  log (snd (on_submit (file :: more) net w))
  = (log w ++ prologue file
       ++ [ ClassListRemove ingredientsSection "hidden";
            SetInnerHTML ingredientsList (Str.join_empty (map badge ings)) ])%list
  /\
  hidden (page (snd (on_submit (file :: more) net w))) ingredientsSection
  = false /\
  innerHTML (page (snd (on_submit (file :: more) net w))) ingredientsList
  = Str.join_empty (map badge ings) /\
  hidden (page (snd (on_submit (file :: more) net w))) recipesSection
  = true /\
  innerHTML (page (snd (on_submit (file :: more) net w))) recipesList
  = innerHTML (page w) recipesList /\
  statusDiv_textContent (page (snd (on_submit (file :: more) net w)))
  = analyzing.
Proof.
  intros Hnet Hjson Hi Hne Hr.
  rewrite on_submit_selected, Hnet, Hjson.
  rewrite (render_without_recipes props ings _ Hi Hne Hr).
  cbn [fst snd].
  destruct ings as [|i ings]; [contradiction|].
  cbn [show_ingredients].
  split; [reflexivity|]. split.
  { rewrite !log_run_effects. now rewrite <- app_assoc. }
  destruct (page_before_fetch w) as (Hs & Hih & Hrh & Hil & Hrl).
  rewrite <- (page_after_prologue file) in Hs, Hih, Hrh, Hil, Hrl.
  destruct (run_effects (prologue file) w) as [[st ic ih rc rh] l].
  unfold hidden in *.
  cbn [run_effects page fold_left apply_effect set_classList classList
       innerHTML statusDiv_textContent ingredientsSection_classList
       ingredientsList_innerHTML recipesSection_classList
       recipesList_innerHTML] in *.
  repeat split; try assumption. apply token_remove_gone.
Qed.

Lemma missing_recipes_renders_half_witness :
  fst (on_submit [photo] (answers 200 (Ok no_recipes_key)) start)
  = Throw TypeError /\
  hidden (page (snd (on_submit [photo] (answers 200 (Ok no_recipes_key))
                               start))) ingredientsSection = false /\
  innerHTML (page (snd (on_submit [photo] (answers 200 (Ok no_recipes_key))
                                  start))) ingredientsList = badge "egg" /\
  statusDiv_textContent
    (page (snd (on_submit [photo] (answers 200 (Ok no_recipes_key)) start)))
  = analyzing.
Proof.
  destruct (missing_recipes_renders_half photo []
              (answers 200 (Ok no_recipes_key)) start
              (mkResponse 200 (Ok no_recipes_key))
              [("ingredients", json_of_strings ["egg"])] ["egg"]
              eq_refl eq_refl eq_refl)
    as (H1 & _ & H3 & H4 & _ & _ & H7).
  - discriminate.
  - reflexivity.
  - repeat split; assumption.
Defined.

(* ================================================================== *)
(** * The scenarios, run *)
(* ================================================================== *)

Example ToString_nested :
  ToString (VArr [VStr "a"; VNull; VArr [VNum "1"; VBool true]; VObj []])
  = Ok "a,,1,true,[object Object]".
Proof. reflexivity. Qed.

Example scenario_no_file :
  on_submit [] (answers 200 (Ok (json_of_response eggs_and_flour))) start
  = (Ok tt, mkWorld fresh_page [PreventDefault]).
Proof. reflexivity. Qed.

Example scenario_eggs_and_flour :
  on_submit [photo] (answers 200 (Ok (json_of_response eggs_and_flour))) start
  = (Ok tt,
     mkWorld
       (mkPage Str.empty ["section"] (badge "egg" ++ badge "flour")
               ["section"; "hidden"] Str.empty)
       (prologue photo
        ++ [ ClassListRemove ingredientsSection "hidden";
             SetInnerHTML ingredientsList (badge "egg" ++ badge "flour");
             SetStatus Str.empty ])%list).
Proof. vm_compute. reflexivity. Qed.

Example scenario_pancakes :
  on_submit [photo] (answers 200 (Ok (json_of_response pancakes_only))) start
  = (Ok tt,
     mkWorld
       (mkPage Str.empty ["section"; "hidden"] Str.empty
               ["section"] (card pancakes))
       (prologue photo
        ++ [ ClassListRemove recipesSection "hidden";
             SetInnerHTML recipesList (card pancakes);
             SetStatus Str.empty ])%list).
Proof. vm_compute. reflexivity. Qed.

Example scenario_pancakes_card :
  card pancakes =
  Str.newline ++ "    <div class=" ++ Str.dquote ++ "recipe-card"
    ++ Str.dquote ++ ">" ++ Str.newline ++
  "      <h3>Pancakes</h3>" ++ Str.newline ++
  "      <p>Fluffy.</p>" ++ Str.newline ++
  "      <h4>Ingredients used</h4>" ++ Str.newline ++
  "      <ul>" ++ Str.newline ++
  "        <li>egg</li><li>flour</li>" ++ Str.newline ++
  "      </ul>" ++ Str.newline ++
  "      <h4>Steps</h4>" ++ Str.newline ++
  "      <ol>" ++ Str.newline ++
  "        <li>Mix</li><li>Cook</li>" ++ Str.newline ++
  "      </ol>" ++ Str.newline ++
  "    </div>" ++ Str.newline ++
  "  ".
Proof. vm_compute. reflexivity. Qed.

Example scenario_null_body :
  on_submit [photo] (answers 200 (Ok VNull)) start
  = (Throw TypeError,
     mkWorld (mkPage analyzing ["section"; "hidden"] Str.empty
                     ["section"; "hidden"] Str.empty)
             (prologue photo)).
Proof. vm_compute. reflexivity. Qed.

Example scenario_error_body :
  fst (on_submit [photo]
         (answers 500 (Ok (VObj [("error", VStr "no image")]))) start)
  = Throw TypeError.
Proof. vm_compute. reflexivity. Qed.

Example scenario_ingredients_not_an_array :
  on_submit [photo]
    (answers 200 (Ok (VObj [("ingredients", VStr "egg");
                            ("recipes", VArr [])]))) start
  = (Throw TypeError,
     mkWorld (mkPage analyzing ["section"] Str.empty
                     ["section"; "hidden"] Str.empty)
             (prologue photo
              ++ [ClassListRemove ingredientsSection "hidden"])%list).
Proof. vm_compute. reflexivity. Qed.

(* ================================================================== *)
(** * Frames: what a cycle reads and what it leaves alone *)
(* ================================================================== *)

Lemma emits_if {A : Type} (P : effect -> Prop) (b : bool) (c1 c2 : M A) :
  emits P c1 -> emits P c2 -> emits P (if b then c1 else c2).
Proof. destruct b; tauto. Qed.

Lemma emits_render_any (P : effect -> Prop) (data : value) :
  P (ClassListRemove ingredientsSection "hidden") ->
  (forall html, P (SetInnerHTML ingredientsList html)) ->
  P (ClassListRemove recipesSection "hidden") ->
  (forall html, P (SetInnerHTML recipesList html)) ->
  P (SetStatus Str.empty) ->
  emits P (render data).
Proof.
  intros H1 H2 H3 H4 H5. unfold render.
  repeat first
    [ apply emits_bind; [|intros ?]
    | apply emits_if
    | apply emits_stateless; apply stateless_lift
    | apply emits_stateless; apply stateless_ret
    | apply emits_stateless; apply stateless_Array_map; apply stateless_pill
    | apply emits_stateless; apply stateless_Array_map;
      apply stateless_renderRecipe
    | apply emits_perform; first [exact H1 | apply H2 | exact H3
                                 | apply H4 | exact H5] ].
Qed.

Lemma emits_on_submit (P : effect -> Prop) (files : list File)
      (net : Network) :
  Forall P before_fetch ->
  (forall init, P (Fetch "/analyze" init)) ->
  P (ClassListRemove ingredientsSection "hidden") ->
  (forall html, P (SetInnerHTML ingredientsList html)) ->
  P (ClassListRemove recipesSection "hidden") ->
  (forall html, P (SetInnerHTML recipesList html)) ->
  P (SetStatus Str.empty) ->
  emits P (on_submit files net).
Proof.
  intros Hb Hf H1 H2 H3 H4 H5 w.
  destruct files as [|file more].
  - rewrite on_submit_no_file. exists [PreventDefault]. split; [reflexivity|].
    constructor; [|constructor]. now inversion Hb.
  - assert (Hp : Forall P (prologue file)).
    { unfold prologue. apply Forall_app. split; [exact Hb|].
      constructor; [apply Hf | constructor]. }
    rewrite on_submit_selected.
    destruct (net "/analyze" (analyze_init file)) as [reason|res].
    { exists (prologue file). now split. }
    destruct (json res) as [data|e].
    + destruct (emits_render_any P data H1 H2 H3 H4 H5
                  (run_effects (prologue file) w)) as (es & Hw & Hes).
      exists (prologue file ++ es)%list. rewrite run_effects_app.
      split; [exact Hw|]. apply Forall_app. now split.
    + exists (prologue file). now split.
Qed.

Lemma token_remove_add (tok : string) (l : list string) :
  token_remove tok (token_add tok l) = token_remove tok l.
Proof.
  unfold token_add. destruct (existsb (String.eqb tok) l); [reflexivity|].
  unfold token_remove. rewrite filter_app. cbn [filter].
  rewrite String.eqb_refl. cbn [negb]. apply app_nil_r.
Qed.

Lemma token_remove_twice (tok : string) (l : list string) :
  token_remove tok (token_remove tok l) = token_remove tok l.
Proof.
  unfold token_remove. induction l as [|t l IH]; [reflexivity|].
  cbn [filter]. destruct (negb (String.eqb tok t)) eqn:E.
  - cbn [filter]. now rewrite E, IH.
  - exact IH.
Qed.

Lemma apply_effect_keeps_tokens (e : effect) (p : Page) (s : section) :
  hidden_token_only e ->
  token_remove "hidden" (classList (apply_effect e p) s)
  = token_remove "hidden" (classList p s).
Proof.
  intros He. destruct p as [st ic ih rc rh].
  destruct e as [|text|s' tok|s' tok|c html|url init];
    cbn [hidden_token_only] in He; subst;
    try (destruct s; reflexivity).
  - destruct s, s'; cbn [apply_effect set_classList classList
      ingredientsSection_classList recipesSection_classList];
      try reflexivity; apply token_remove_add.
  - destruct s, s'; cbn [apply_effect set_classList classList
      ingredientsSection_classList recipesSection_classList];
      try reflexivity; apply token_remove_twice.
  - destruct s, c; reflexivity.
Qed.

Lemma run_effects_keeps_tokens (es : list effect) (w : World) (s : section) :
  Forall hidden_token_only es ->
  token_remove "hidden" (classList (page (run_effects es w)) s)
  = token_remove "hidden" (classList (page w) s).
Proof.
  revert w. induction es as [|e es IH]; intros w Hes.
  - now rewrite run_effects_nil.
  - inversion Hes as [|? ? He Hrest]; subst.
    change (e :: es) with ([e] ++ es)%list.
    rewrite run_effects_app, (IH _ Hrest).
    cbn [run_effects page fold_left]. now apply apply_effect_keeps_tokens.
Qed.

Lemma run_effects_leaves_status (es : list effect) (w : World) :
  Forall leaves_status es ->
  statusDiv_textContent (page (run_effects es w))
  = statusDiv_textContent (page w).
Proof.
  revert w. induction es as [|e es IH]; intros w Hes.
  - now rewrite run_effects_nil.
  - inversion Hes as [|? ? He Hrest]; subst.
    change (e :: es) with ([e] ++ es)%list.
    rewrite run_effects_app, (IH _ Hrest).
    destruct w as [[st ic ih rc rh] l].
    destruct e as [|text|[]|[]|[]|]; try contradiction; reflexivity.
Qed.

Lemma blind_stateless {A : Type} (c : M A) : stateless c -> blind c.
Proof.
  intros [r Hc]. exists r, []. intros w. now rewrite Hc, run_effects_nil.
Qed.

Lemma blind_perform (e : effect) : blind (perform e).
Proof. exists (Ok tt), [e]. reflexivity. Qed.

Lemma blind_bind {A B : Type} (c : M A) (k : A -> M B) :
  blind c -> (forall a, blind (k a)) -> blind (bind c k).
Proof.
  intros (r & es & Hc) Hk. destruct r as [a|e].
  - destruct (Hk a) as (r' & es' & Hk'). exists r', (es ++ es')%list.
    intros w. unfold bind. now rewrite Hc, Hk', run_effects_app.
  - exists (Throw e), es. intros w. unfold bind. now rewrite Hc.
Qed.

Lemma blind_if {A : Type} (b : bool) (c1 c2 : M A) :
  blind c1 -> blind c2 -> blind (if b then c1 else c2).
Proof. destruct b; tauto. Qed.

Lemma blind_render (data : value) : blind (render data).
Proof.
  unfold render.
  repeat first
    [ apply blind_bind; [|intros ?]
    | apply blind_if
    | apply blind_perform
    | apply blind_stateless; apply stateless_lift
    | apply blind_stateless; apply stateless_ret
    | apply blind_stateless; apply stateless_Array_map; apply stateless_pill
    | apply blind_stateless; apply stateless_Array_map;
      apply stateless_renderRecipe ].
Qed.

Lemma closes_perform (P : effect -> Prop) (last : effect) :
  closes P last (perform last).
Proof.
  intros w. exists []. split; [constructor|]. left. exists tt. reflexivity.
Qed.

Lemma closes_bind {A B : Type} (P : effect -> Prop) (last : effect)
      (c : M A) (k : A -> M B) :
  emits P c -> (forall a, closes P last (k a)) -> closes P last (bind c k).
Proof.
  intros Hc Hk w. destruct (Hc w) as (es & Hw & Hes).
  unfold bind. destruct (c w) as [[a|e] w1]; cbn [snd] in Hw; subst w1.
  - destruct (Hk a (run_effects es w)) as (es' & Hes' & H).
    exists (es ++ es')%list. split; [apply Forall_app; now split|].
    destruct H as [[b H]|[e H]]; rewrite H; [left; exists b | right; exists e];
      now rewrite <- !run_effects_app, <- ?app_assoc.
  - exists es. split; [exact Hes|]. right. exists e. reflexivity.
Qed.

Lemma closes_render (data : value) :
  closes leaves_status (SetStatus Str.empty) (render data).
Proof.
  unfold render.
  repeat (apply closes_bind;
          [ repeat first
              [ apply emits_if
              | apply emits_bind; [|intros ?]
              | apply emits_stateless; apply stateless_lift
              | apply emits_stateless; apply stateless_ret
              | apply emits_stateless; apply stateless_Array_map;
                apply stateless_pill
              | apply emits_stateless; apply stateless_Array_map;
                apply stateless_renderRecipe
              | apply emits_perform; exact I ]
          | intros ? ]).
  apply closes_perform.
Qed.

(** X1.  Every submission suppresses the native submit first: whatever
    the file input holds and whatever the network does, the first effect
    of the handler is [preventDefault]. *)
Theorem preventDefault_always_first
        (files : list File) (net : Network) (w : World) :
  exists rest,
    log (snd (on_submit files net w)) = (log w ++ PreventDefault :: rest)%list.
Proof.
  destruct files as [|file more].
  - exists []. now rewrite on_submit_no_file.
  - rewrite on_submit_selected.
    destruct (net "/analyze" (analyze_init file)) as [reason|res];
      [eexists; cbn [snd]; rewrite log_run_effects; reflexivity|].
    destruct (json res) as [data|e];
      [|eexists; cbn [snd]; rewrite log_run_effects; reflexivity].
    destruct (emits_render data (run_effects (prologue file) w))
      as (later & Hw & _).
    exists (tl (prologue file) ++ later)%list.
    rewrite Hw, !log_run_effects, <- app_assoc. reflexivity.
Qed.

(** Only the first file of the input is read: the files selected
    after it change nothing of the cycle, neither the request nor the
    page. *)
Lemma only_first_file_is_sent
        (file : File) (more : list File) (net : Network) (w : World) :
  on_submit (file :: more) net w = on_submit [file] net w.
Proof. now rewrite !on_submit_selected. Qed.

(** X2.  The HTTP status of the response is never looked at: two
    networks whose responses to the request parse alike drive the same
    cycle, whatever the two status codes are. *)
Theorem http_status_is_ignored
        (file : File) (more : list File) (net net' : Network) (w : World)
        (res res' : Response) :
  net "/analyze" (analyze_init file) = Fulfilled res ->
  net' "/analyze" (analyze_init file) = Fulfilled res' ->
  json res = json res' ->
  on_submit (file :: more) net w = on_submit (file :: more) net' w.
Proof.
  intros H H' Hj. now rewrite !on_submit_selected, H, H', Hj.
Qed.

Lemma http_status_is_ignored_witness :
  on_submit [photo] (answers 200 (Ok (json_of_response eggs_and_flour))) start
  = on_submit [photo] (answers 500 (Ok (json_of_response eggs_and_flour)))
              start.
Proof.
  apply (http_status_is_ignored photo []
           (answers 200 (Ok (json_of_response eggs_and_flour)))
           (answers 500 (Ok (json_of_response eggs_and_flour))) start
           (mkResponse 200 (Ok (json_of_response eggs_and_flour)))
           (mkResponse 500 (Ok (json_of_response eggs_and_flour))));
    reflexivity.
Defined.

(** X3.  The handler never reads the page: for given files and a given
    network, what it returns or throws and the effects it makes are the
    same from every world. *)
Theorem handler_never_reads_the_page (files : list File) (net : Network) :
  exists r es, forall w, on_submit files net w = (r, run_effects es w).
Proof.
  destruct files as [|file more].
  - exists (Ok tt), [PreventDefault]. intros w. apply on_submit_no_file.
  - destruct (net "/analyze" (analyze_init file)) as [reason|res] eqn:Hnet.
    { exists (Throw reason), (prologue file). intros w.
      now rewrite on_submit_selected, Hnet. }
    destruct (json res) as [data|e] eqn:Hjson.
    + destruct (blind_render data) as (r & es & Hr).
      exists r, (prologue file ++ es)%list. intros w.
      now rewrite on_submit_selected, Hnet, Hjson, Hr, run_effects_app.
    + exists (Throw e), (prologue file). intros w.
      now rewrite on_submit_selected, Hnet, Hjson.
Qed.

(** X4.  A cycle touches no class of a section but [hidden]: whatever
    the files, the network and the parsed body, the other tokens of each
    class list are after the cycle what they were before it, in the same
    order. *)
Theorem other_class_tokens_are_kept
        (files : list File) (net : Network) (w : World) (s : section) :
  token_remove "hidden" (classList (page (snd (on_submit files net w))) s)
  = token_remove "hidden" (classList (page w) s).
Proof.
  destruct (emits_on_submit hidden_token_only files net) with (w := w)
    as (es & Hw & Hes);
    try (intros; exact I); try reflexivity.
  - repeat constructor.
  - rewrite Hw. now apply run_effects_keeps_tokens.
Qed.

(** X5.  With a file selected, the status line tells how the handler
    ended, whatever the network and the parsed body: it is empty when
    the handler returned, and it still reads the in-progress text when
    the handler threw. *)
Theorem status_tells_how_the_cycle_ended
        (file : File) (more : list File) (net : Network) (w : World) :
  statusDiv_textContent (page (snd (on_submit (file :: more) net w)))
  = match fst (on_submit (file :: more) net w) with
    | Ok _ => Str.empty
    | Throw _ => analyzing
    end.
Proof.
  assert (Hp : statusDiv_textContent (page (run_effects (prologue file) w))
               = analyzing).
  { rewrite page_after_prologue. apply page_before_fetch. }
  rewrite on_submit_selected.
  destruct (net "/analyze" (analyze_init file)) as [reason|res];
    [exact Hp|].
  destruct (json res) as [data|e]; [|exact Hp].
  destruct (closes_render data (run_effects (prologue file) w))
    as (es & Hes & [[a H]|[e H]]); rewrite H; cbn [fst snd].
  - rewrite run_effects_app. reflexivity.
  - now rewrite run_effects_leaves_status.
Qed.

(* ================================================================== *)
(** * Bodies that are not of the contract *)
(* ================================================================== *)

Lemma render_ingredients_unusable (data : value) (w : World) :
  (forall v, Get data "ingredients" = Ok v -> v = VUndefined \/ v = VNull) ->
  render data w = (Throw TypeError, w).
Proof.
  intros H. unfold render. unfold bind at 1.
  destruct (Get data "ingredients") as [v|e] eqn:Ei.
  - assert (Er : exists r, Get data "recipes" = Ok r).
    { destruct data; try discriminate Ei; eexists; reflexivity. }
    destruct Er as [r Er]. cbn [lift ret]. unfold bind at 1. rewrite Er.
    cbn [lift ret]. unfold bind at 1.
    destruct (H v eq_refl) as [-> | ->]; reflexivity.
  - destruct data; try discriminate Ei;
      cbn [Get] in Ei; injection Ei as <-; reflexivity.
Qed.

Lemma length_truthy_string (s : string) :
  s <> EmptyString ->
  ToBoolean (VNum (nat_repr (String.length s))) = true.
Proof.
  intros Hs. rewrite ToBoolean_length.
  destruct s; [contradiction | reflexivity].
Qed.

Lemma render_ingredients_not_array (props : list (string * value))
      (v len : value) (w : World) :
  own props "ingredients" = v ->
  (forall l, v <> VArr l) ->
  Get v "length" = Ok len ->
  ToBoolean len = true ->
  render (VObj props) w =
  (Throw TypeError,
   run_effects [ClassListRemove ingredientsSection "hidden"] w).
Proof.
  intros Hi Hv Hlen Ht. unfold render.
  unfold bind at 1. cbn [lift Get ret]. rewrite Hi.
  unfold bind at 1. cbn [lift Get ret].
  unfold bind at 1. rewrite Hlen. cbn [lift ret]. rewrite Ht.
  unfold bind at 1. rewrite bind_perform. unfold bind at 1.
  destruct v; try reflexivity. now destruct (Hv elems).
Qed.

Lemma render_ingredients_skipped (props : list (string * value))
      (v len : value) (recs : list Recipe) (w : World) :
  own props "ingredients" = v ->
  Get v "length" = Ok len ->
  ToBoolean len = false ->
  own props "recipes" = VArr (map json_of_recipe recs) ->
  render (VObj props) w =
  (Ok tt, run_effects (show_recipes recs ++ [SetStatus Str.empty]) w).
Proof.
  intros Hi Hlen Hf Hr. unfold render.
  unfold bind at 1. cbn [lift Get ret]. rewrite Hi.
  unfold bind at 1. cbn [lift Get ret]. rewrite Hr.
  unfold bind at 1. rewrite Hlen. cbn [lift ret]. rewrite Hf.
  unfold bind at 1. unfold ret at 1.
  rewrite run_effects_app.
  unfold bind at 1. cbn [lift Get String.eqb Ascii.eqb Bool.eqb ret].
  rewrite ToBoolean_length, length_map.
  destruct recs as [|r recs].
  - cbn [List.length Nat.eqb negb show_recipes].
    unfold bind at 1. unfold ret at 1. rewrite run_effects_nil. reflexivity.
  - cbn [List.length Nat.eqb negb show_recipes].
    unfold bind at 1. rewrite bind_perform.
    unfold bind at 1. unfold Array_map. rewrite mapM_renderRecipe.
    rewrite perform_run, <- run_effects_app. reflexivity.
Qed.

Lemma mapM_renderRecipe_stops (good : list Recipe) (bad : value)
      (rest : list value) (e : error) (w : World) :
  (forall w', renderRecipe bad w' = (Throw e, w')) ->
  mapM renderRecipe (map json_of_recipe good ++ bad :: rest) w = (Throw e, w).
Proof.
  intros Hbad. induction good as [|r good IH].
  - cbn [map]. rewrite app_nil_l. cbn [mapM].
    unfold bind at 1. now rewrite Hbad.
  - cbn [map]. rewrite <- app_comm_cons. cbn [mapM].
    unfold bind at 1. rewrite renderRecipe_card.
    unfold bind at 1. now rewrite IH.
Qed.

Lemma render_bad_recipe (props : list (string * value)) (ings : list string)
      (good : list Recipe) (bad : value) (rest : list value) (e : error)
      (w : World) :
  own props "ingredients" = json_of_strings ings ->
  own props "recipes" = VArr (map json_of_recipe good ++ bad :: rest) ->
  (forall w', renderRecipe bad w' = (Throw e, w')) ->
  render (VObj props) w =
  (Throw e,
   run_effects (show_ingredients ings
                ++ [ClassListRemove recipesSection "hidden"]) w).
Proof.
  intros Hi Hr Hbad. unfold render.
  unfold bind at 1. cbn [lift Get ret]. rewrite Hi.
  unfold bind at 1. cbn [lift Get ret]. rewrite Hr.
  unfold json_of_strings.
  unfold bind at 1. cbn [lift Get String.eqb Ascii.eqb Bool.eqb ret].
  rewrite ToBoolean_length, length_map.
  assert (Hs : forall k : unit -> M unit,
             bind (if negb (Nat.eqb (List.length ings) 0)
                   then perform (ClassListRemove ingredientsSection "hidden") ;;
                        pills <- Array_map pill (VArr (map VStr ings)) ;;
                        perform (SetInnerHTML ingredientsList
                                              (Str.join_empty pills))
                   else ret tt) k w
             = k tt (run_effects (show_ingredients ings) w)).
  { intros k. destruct ings as [|i ings].
    - cbn [List.length Nat.eqb negb show_ingredients].
      now rewrite run_effects_nil.
    - cbn [List.length Nat.eqb negb show_ingredients].
      unfold bind at 1. rewrite bind_perform.
      unfold bind at 1. unfold Array_map. rewrite mapM_pill.
      rewrite perform_run, <- run_effects_app. reflexivity. }
  rewrite Hs. clear Hs. rewrite run_effects_app.
  unfold bind at 1. cbn [lift Get String.eqb Ascii.eqb Bool.eqb ret].
  rewrite ToBoolean_length, length_app, length_map. cbn [List.length].
  rewrite Nat.add_succ_r. cbn [Nat.eqb negb].
  unfold bind at 1. rewrite bind_perform.
  unfold bind at 1. unfold Array_map.
  now rewrite (mapM_renderRecipe_stops good bad rest e _ Hbad).
Qed.

(** X6.  A body that parses to anything but an object ([null], an
    array, a string, a number, a boolean) ends the cycle with a
    [TypeError] right after the request: nothing is shown, nothing is
    written, and the world is the one the call of [fetch] left. *)
Theorem body_not_an_object_renders_nothing
        (file : File) (more : list File) (net : Network) (w : World)
        (res : Response) (data : value) :
  net "/analyze" (analyze_init file) = Fulfilled res ->
  json res = Ok data ->
  (forall props, data <> VObj props) ->
  on_submit (file :: more) net w =
  (Throw TypeError, run_effects (prologue file) w).
Proof.
  intros Hnet Hjson Hshape.
  rewrite on_submit_selected, Hnet, Hjson.
  apply render_ingredients_unusable. intros v Hv.
  destruct data; cbn [Get] in Hv; try discriminate Hv;
    try (injection Hv as <-; now left).
  now destruct (Hshape props).
Qed.

Lemma body_not_an_object_renders_nothing_witness :
  on_submit [photo] (answers 200 (Ok (VArr [VStr "egg"]))) start =
  (Throw TypeError, run_effects (prologue photo) start).
Proof.
  apply (body_not_an_object_renders_nothing photo []
           (answers 200 (Ok (VArr [VStr "egg"]))) start
           (mkResponse 200 (Ok (VArr [VStr "egg"]))) (VArr [VStr "egg"])
           eq_refl eq_refl).
  intros props H. discriminate H.
Defined.

(** X7.  An object whose [ingredients] are missing or [null] is not
    rendered at all, whatever its [recipes] are: the handler throws a
    [TypeError] before it shows or writes anything, so well-formed
    recipes of such a body never reach the page. *)
Theorem missing_ingredients_renders_nothing
        (file : File) (more : list File) (net : Network) (w : World)
        (res : Response) (props : list (string * value)) :
  net "/analyze" (analyze_init file) = Fulfilled res ->
  json res = Ok (VObj props) ->
  own props "ingredients" = VUndefined \/ own props "ingredients" = VNull ->
  on_submit (file :: more) net w =
  (Throw TypeError, run_effects (prologue file) w).
Proof.
  intros Hnet Hjson Hi.
  rewrite on_submit_selected, Hnet, Hjson.
  apply render_ingredients_unusable. intros v Hv.
  cbn [Get] in Hv. injection Hv as <-. exact Hi.
Qed.

Lemma missing_ingredients_renders_nothing_witness :
  on_submit [photo]
    (answers 200 (Ok (VObj [("recipes", VArr [json_of_recipe pancakes])])))
    start =
  (Throw TypeError, run_effects (prologue photo) start).
Proof.
  apply (missing_ingredients_renders_nothing photo []
           (answers 200
              (Ok (VObj [("recipes", VArr [json_of_recipe pancakes])])))
           start
           (mkResponse 200
              (Ok (VObj [("recipes", VArr [json_of_recipe pancakes])])))
           [("recipes", VArr [json_of_recipe pancakes])]
           eq_refl eq_refl).
  left. reflexivity.
Defined.

(** X8.  When [ingredients] is not an array but has a truthy [length]
    (a non-empty string, an object with such a property), the handler
    shows the ingredients section and then throws a [TypeError] at
    [map]: the section is visible with the markup of an earlier cycle,
    the list is not written, the recipes are not looked at, and the
    status line keeps the in-progress text. *)
Theorem ingredients_not_an_array_shows_stale_list
        (file : File) (more : list File) (net : Network) (w : World)
        (res : Response) (props : list (string * value)) (v len : value) :
  net "/analyze" (analyze_init file) = Fulfilled res ->
  json res = Ok (VObj props) ->
  own props "ingredients" = v ->
  (forall l, v <> VArr l) ->
  Get v "length" = Ok len ->
  ToBoolean len = true ->
  on_submit (file :: more) net w =
  (Throw TypeError,
   run_effects (prologue file
                ++ [ClassListRemove ingredientsSection "hidden"]) w) /\
  hidden (page (snd (on_submit (file :: more) net w))) ingredientsSection
  = false /\
  innerHTML (page (snd (on_submit (file :: more) net w))) ingredientsList
  = innerHTML (page w) ingredientsList /\
  hidden (page (snd (on_submit (file :: more) net w))) recipesSection
  = true /\
  statusDiv_textContent (page (snd (on_submit (file :: more) net w)))
  = analyzing.
Proof.
  intros Hnet Hjson Hi Hv Hlen Ht.
  assert (E : on_submit (file :: more) net w =
              (Throw TypeError,
               run_effects (prologue file
                            ++ [ClassListRemove ingredientsSection "hidden"])
                           w)).
  { rewrite on_submit_selected, Hnet, Hjson.
    rewrite (render_ingredients_not_array props v len _ Hi Hv Hlen Ht).
    now rewrite run_effects_app. }
  split; [exact E|]. rewrite E. cbn [snd]. rewrite run_effects_app.
  destruct (page_before_fetch w) as (Hs & Hih & Hrh & Hil & Hrl).
  rewrite <- (page_after_prologue file) in Hs, Hih, Hrh, Hil, Hrl.
  destruct (run_effects (prologue file) w) as [[st ic ih rc rh] l].
  unfold hidden in *.
  cbn [run_effects page fold_left apply_effect set_classList classList
       innerHTML statusDiv_textContent ingredientsSection_classList
       ingredientsList_innerHTML recipesSection_classList
       recipesList_innerHTML] in *.
  repeat split; try assumption. apply token_remove_gone.
Qed.

Lemma ingredients_not_an_array_shows_stale_list_witness :
  fst (on_submit [photo]
         (answers 200 (Ok (VObj [("ingredients", VStr "egg, flour");
                                 ("recipes", VArr [])]))) start)
  = Throw TypeError /\
  hidden (page (snd (on_submit [photo]
         (answers 200 (Ok (VObj [("ingredients", VStr "egg, flour");
                                 ("recipes", VArr [])]))) start)))
         ingredientsSection = false.
Proof.
  destruct (ingredients_not_an_array_shows_stale_list photo []
              (answers 200 (Ok (VObj [("ingredients", VStr "egg, flour");
                                      ("recipes", VArr [])]))) start
              (mkResponse 200 (Ok (VObj [("ingredients", VStr "egg, flour");
                                         ("recipes", VArr [])])))
              [("ingredients", VStr "egg, flour"); ("recipes", VArr [])]
              (VStr "egg, flour") (VNum "10")
              eq_refl eq_refl eq_refl) as (H1 & H2 & _).
  - intros l H. discriminate H.
  - reflexivity.
  - reflexivity.
  - split; [now rewrite H1 | exact H2].
Defined.

(** X9.  When [ingredients] has a falsy [length] without being an
    array (a number, a boolean, the empty string, an object without
    [length]), the handler takes it for an empty list: it skips the
    ingredients, renders the recipes as for a response of the contract
    and clears the status line. *)
Theorem ingredients_without_length_are_skipped
        (file : File) (more : list File) (net : Network) (w : World)
        (res : Response) (props : list (string * value)) (v len : value)
        (recs : list Recipe) :
  net "/analyze" (analyze_init file) = Fulfilled res ->
  json res = Ok (VObj props) ->
  own props "ingredients" = v ->
  Get v "length" = Ok len ->
  ToBoolean len = false ->
  own props "recipes" = VArr (map json_of_recipe recs) ->
  on_submit (file :: more) net w =
  (Ok tt,
   run_effects (prologue file ++ rendering (mkAnalysis [] recs)) w).
Proof.
  intros Hnet Hjson Hi Hlen Hf Hr.
  rewrite on_submit_selected, Hnet, Hjson.
  rewrite (render_ingredients_skipped props v len recs _ Hi Hlen Hf Hr).
  rewrite (run_effects_app (prologue file)). reflexivity.
Qed.

Lemma ingredients_without_length_are_skipped_witness :
  on_submit [photo]
    (answers 200 (Ok (VObj [("ingredients", VNum "3");
                            ("recipes", VArr [json_of_recipe pancakes])])))
    start =
  on_submit [photo] (answers 200 (Ok (json_of_response pancakes_only))) start.
Proof.
  rewrite (ingredients_without_length_are_skipped photo []
             (answers 200
                (Ok (VObj [("ingredients", VNum "3");
                           ("recipes", VArr [json_of_recipe pancakes])])))
             start
             (mkResponse 200
                (Ok (VObj [("ingredients", VNum "3");
                           ("recipes", VArr [json_of_recipe pancakes])])))
             [("ingredients", VNum "3");
              ("recipes", VArr [json_of_recipe pancakes])]
             (VNum "3") VUndefined [pancakes]
             eq_refl eq_refl eq_refl eq_refl eq_refl eq_refl).
  vm_compute. reflexivity.
Defined.

(** X10.  One recipe that [renderRecipe] throws on keeps every card off
    the page: the recipes section has been shown, the cards of the
    recipes before it are lost with it, the list keeps its old markup
    and the status line keeps the in-progress text; the ingredients are
    rendered as usual. *)
Theorem one_bad_recipe_blocks_all_cards
        (file : File) (more : list File) (net : Network) (w : World)
        (res : Response) (props : list (string * value))
        (ings : list string) (good : list Recipe) (bad : value)
        (rest : list value) (e : error) :
  net "/analyze" (analyze_init file) = Fulfilled res ->
  json res = Ok (VObj props) ->
  own props "ingredients" = json_of_strings ings ->
  own props "recipes" = VArr (map json_of_recipe good ++ bad :: rest) ->
  (forall w', renderRecipe bad w' = (Throw e, w')) ->
  on_submit (file :: more) net w =
  (Throw e,
   run_effects (prologue file ++ show_ingredients ings
                ++ [ClassListRemove recipesSection "hidden"]) w) /\
  hidden (page (snd (on_submit (file :: more) net w))) recipesSection
  = false /\
  innerHTML (page (snd (on_submit (file :: more) net w))) recipesList
  = innerHTML (page w) recipesList /\
  statusDiv_textContent (page (snd (on_submit (file :: more) net w)))
  = analyzing.
Proof.
  intros Hnet Hjson Hi Hr Hbad.
  assert (E : on_submit (file :: more) net w =
              (Throw e,
               run_effects (prologue file ++ show_ingredients ings
                            ++ [ClassListRemove recipesSection "hidden"]) w)).
  { rewrite on_submit_selected, Hnet, Hjson.
    rewrite (render_bad_recipe props ings good bad rest e _ Hi Hr Hbad).
    now rewrite <- run_effects_app. }
  split; [exact E|]. rewrite E. cbn [snd]. rewrite !run_effects_app.
  destruct (page_before_fetch w) as (Hs & Hih & Hrh & Hil & Hrl).
  rewrite <- (page_after_prologue file) in Hs, Hih, Hrh, Hil, Hrl.
  destruct (run_effects (prologue file) w) as [[st ic ih rc rh] l].
  unfold hidden in *.
  destruct ings as [|i ings];
    cbn [show_ingredients run_effects page fold_left apply_effect
         set_classList classList innerHTML statusDiv_textContent
         ingredientsSection_classList ingredientsList_innerHTML
         recipesSection_classList recipesList_innerHTML] in *;
    repeat split; try assumption; apply token_remove_gone.
Qed.

Lemma one_bad_recipe_blocks_all_cards_witness :
  fst (on_submit [photo]
         (answers 200
            (Ok (VObj [("ingredients", json_of_strings ["egg"]);
                       ("recipes", VArr [json_of_recipe pancakes; VNull])])))
         start) = Throw TypeError /\
  innerHTML
    (page (snd (on_submit [photo]
         (answers 200
            (Ok (VObj [("ingredients", json_of_strings ["egg"]);
                       ("recipes", VArr [json_of_recipe pancakes; VNull])])))
         start))) recipesList = Str.empty.
Proof.
  destruct (one_bad_recipe_blocks_all_cards photo []
              (answers 200
                 (Ok (VObj [("ingredients", json_of_strings ["egg"]);
                            ("recipes",
                             VArr [json_of_recipe pancakes; VNull])])))
              start
              (mkResponse 200
                 (Ok (VObj [("ingredients", json_of_strings ["egg"]);
                            ("recipes",
                             VArr [json_of_recipe pancakes; VNull])])))
              [("ingredients", json_of_strings ["egg"]);
               ("recipes", VArr [json_of_recipe pancakes; VNull])]
              ["egg"] [pancakes] VNull [] TypeError
              eq_refl eq_refl eq_refl eq_refl) as (H1 & _ & H3 & _).
  - intros w'. reflexivity.
  - split; [now rewrite H1 | exact H3].
Defined.

(* ================================================================== *)
(** * What the script can throw *)
(* ================================================================== *)

Lemma Get_error (v : value) (k : string) (e : error) :
  Get v k = Throw e -> e = TypeError.
Proof.
  destruct v; cbn [Get]; try discriminate;
    try (intros H; now injection H as <-);
    destruct (String.eqb k "length"); discriminate.
Qed.

Lemma join_comma_error (elems : list value) (e : error) :
  Forall (fun x => forall e', ToString x = Throw e' -> e' = TypeError) elems ->
  ToString (VArr elems) = Throw e -> e = TypeError.
Proof.
  intros Hall. cbn [ToString].
  induction Hall as [|x rest Hx Hrest IHrest]; [discriminate|].
  destruct (match x with
            | VUndefined | VNull => Ok Str.empty
            | _ => ToString x
            end) as [s|e'] eqn:Ex.
  - destruct rest as [|y rest']; [discriminate|].
    match goal with
    | |- match ?j with Ok _ => _ | Throw _ => _ end = _ -> _ =>
        destruct j as [r|e''] eqn:Er
    end.
    + discriminate.
    + intros H. injection H as <-. now apply IHrest.
  - intros H. injection H as <-.
    destruct x; try discriminate Ex; exact (Hx _ Ex).
Qed.

Lemma ToString_error (v : value) (e : error) :
  ToString v = Throw e -> e = TypeError.
Proof.
  revert v e. fix IH 1. intros v e.
  destruct v as [| | [|] | repr | s | elems | props];
    try (cbn [ToString]; discriminate).
  - apply join_comma_error.
    exact ((fix all (l : list value)
              : Forall (fun x => forall e', ToString x = Throw e'
                                            -> e' = TypeError) l :=
              match l with
              | [] => Forall_nil _
              | x :: rest => Forall_cons x (IH x) (all rest)
              end) elems).
  - cbn [ToString]. destruct (has_own props "toString"); [|discriminate].
    intros H. now injection H as <-.
Qed.

Lemma only_ret {A : Type} (a : A) : throws_TypeError_only (ret a).
Proof. intros w e H. discriminate H. Qed.

Lemma only_throw {A : Type} : throws_TypeError_only (@throw A TypeError).
Proof. intros w e H. now injection H as <-. Qed.

Lemma only_perform (x : effect) : throws_TypeError_only (perform x).
Proof. intros w e H. discriminate H. Qed.

Lemma only_Get (v : value) (k : string) :
  throws_TypeError_only (lift (Get v k)).
Proof.
  intros w e. destruct (Get v k) as [a|e'] eqn:E; cbn; [discriminate|].
  intros H. injection H as <-. exact (Get_error _ _ _ E).
Qed.

Lemma only_ToString (v : value) : throws_TypeError_only (lift (ToString v)).
Proof.
  intros w e. destruct (ToString v) as [a|e'] eqn:E; cbn; [discriminate|].
  intros H. injection H as <-. exact (ToString_error _ _ E).
Qed.

Lemma only_bind {A B : Type} (c : M A) (k : A -> M B) :
  throws_TypeError_only c -> (forall a, throws_TypeError_only (k a)) ->
  throws_TypeError_only (bind c k).
Proof.
  intros Hc Hk w e. unfold bind.
  destruct (c w) as [[a|e'] w1] eqn:E.
  - apply Hk.
  - cbn [fst]. intros H. injection H as <-.
    apply (Hc w). now rewrite E.
Qed.

Lemma only_if {A : Type} (b : bool) (c1 c2 : M A) :
  throws_TypeError_only c1 -> throws_TypeError_only c2 ->
  throws_TypeError_only (if b then c1 else c2).
Proof. destruct b; tauto. Qed.

Lemma only_mapM {A B : Type} (f : A -> M B) (l : list A) :
  (forall x, throws_TypeError_only (f x)) -> throws_TypeError_only (mapM f l).
Proof.
  intros Hf. induction l as [|x l IH]; cbn [mapM].
  - apply only_ret.
  - apply only_bind; [apply Hf|]. intros y.
    apply only_bind; [exact IH|]. intros ys. apply only_ret.
Qed.

Lemma only_Array_map {B : Type} (f : value -> M B) (v : value) :
  (forall x, throws_TypeError_only (f x)) ->
  throws_TypeError_only (Array_map f v).
Proof.
  intros Hf. destruct v; cbn [Array_map]; try apply only_throw.
  now apply only_mapM.
Qed.

Lemma only_li (i : value) : throws_TypeError_only (li i).
Proof.
  unfold li. apply only_bind; [apply only_ToString|].
  intros s. apply only_ret.
Qed.

Lemma only_pill (i : value) : throws_TypeError_only (pill i).
Proof.
  unfold pill. apply only_bind; [apply only_ToString|].
  intros s. apply only_ret.
Qed.

Lemma only_renderRecipe (recipe : value) :
  throws_TypeError_only (renderRecipe recipe).
Proof.
  unfold renderRecipe.
  repeat (apply only_bind;
          [first [apply only_Get | apply only_ToString
                 | apply only_Array_map; apply only_li] | intros ?]).
  apply only_ret.
Qed.

Lemma only_render (data : value) : throws_TypeError_only (render data).
Proof.
  unfold render.
  repeat first
    [ apply only_bind; [|intros ?]
    | apply only_if
    | apply only_Get
    | apply only_ret
    | apply only_perform
    | apply only_Array_map; apply only_pill
    | apply only_Array_map; apply only_renderRecipe ].
Qed.

(** X11.  What a cycle can end with: when the handler throws, the error
    is the reason the request was rejected with, or the error the
    parsing of the body was rejected with, or a [TypeError] raised by
    the rendering itself. *)
Theorem handler_failures
        (files : list File) (net : Network) (w : World) (e : error) :
  fst (on_submit files net w) = Throw e ->
  (exists file more, files = file :: more /\
     (net "/analyze" (analyze_init file) = Rejected e \/
      exists res, net "/analyze" (analyze_init file) = Fulfilled res /\
                  (json res = Throw e \/
                   exists data, json res = Ok data /\ e = TypeError))).
Proof.
  destruct files as [|file more].
  - rewrite on_submit_no_file. discriminate.
  - rewrite on_submit_selected. intros H. exists file, more.
    split; [reflexivity|].
    destruct (net "/analyze" (analyze_init file)) as [reason|res].
    + left. now injection H as <-.
    + right. exists res. split; [reflexivity|].
      destruct (json res) as [data|e'].
      * right. exists data. split; [reflexivity|].
        exact (only_render data _ _ H).
      * left. now injection H as <-.
Qed.

Lemma handler_failures_witness :
  exists file more, [photo] = file :: more /\
    (rejects (DOMException "AbortError") "/analyze" (analyze_init file)
     = Rejected (DOMException "AbortError") \/
     exists res,
       rejects (DOMException "AbortError") "/analyze" (analyze_init file)
       = Fulfilled res /\
       (json res = Throw (DOMException "AbortError") \/
        exists data, json res = Ok data /\
                     DOMException "AbortError" = TypeError)).
Proof.
  apply (handler_failures [photo] (rejects (DOMException "AbortError")) start
           (DOMException "AbortError")).
  reflexivity.
Defined.

(* ================================================================== *)
(** * [renderRecipe] on objects that are not Recipe records *)
(* ================================================================== *)

(** X12.  [renderRecipe] does not ask for strings: the title and the
    short description go through [ToString], so that a recipe without a
    title is rendered with the word [undefined] as its heading, one with
    a [null] title with the word [null].  Only the own properties of the
    four names count, in whatever order the object holds them. *)
Theorem renderRecipe_converts_title_and_description
        (props : list (string * value)) (t d : string)
        (used stps : list string) (w : World) :
  ToString (own props "title") = Ok t ->
  ToString (own props "short_description") = Ok d ->
  own props "ingredients_used" = json_of_strings used ->
  own props "steps" = json_of_strings stps ->
  renderRecipe (VObj props) w =
  (Ok (recipe_template t d (items used) (items stps)), w).
Proof.
  intros Ht Hd Hu Hs. unfold renderRecipe.
  unfold bind at 1. cbn [lift Get ret].
  unfold bind at 1. rewrite Ht. cbn [lift ret].
  unfold bind at 1. cbn [lift Get ret].
  unfold bind at 1. rewrite Hd. cbn [lift ret].
  unfold bind at 1. cbn [lift Get ret]. rewrite Hu.
  unfold bind at 1. unfold json_of_strings, Array_map. rewrite mapM_li.
  unfold bind at 1. cbn [lift Get ret]. rewrite Hs.
  unfold bind at 1. unfold json_of_strings. rewrite mapM_li.
  reflexivity.
Qed.

Lemma renderRecipe_converts_title_and_description_witness :
  renderRecipe
    (VObj [("steps", json_of_strings ["Mix"]);
           ("short_description", VNull);
           ("ingredients_used", json_of_strings ["egg"])]) start =
  (Ok (recipe_template "undefined" "null" (items ["egg"]) (items ["Mix"])),
   start).
Proof.
  apply (renderRecipe_converts_title_and_description
           [("steps", json_of_strings ["Mix"]);
            ("short_description", VNull);
            ("ingredients_used", json_of_strings ["egg"])]
           "undefined" "null" ["egg"] ["Mix"] start);
    reflexivity.
Defined.

(** X13.  [renderRecipe] needs both lists: when [ingredients_used] or
    [steps] is not an array (missing, [null], a string) it throws a
    [TypeError] and makes no effect, whatever the rest of the recipe
    is. *)
Theorem renderRecipe_needs_both_lists
        (props : list (string * value)) (w : World) :
  (forall l, own props "ingredients_used" <> VArr l) \/
  (forall l, own props "steps" <> VArr l) ->
  renderRecipe (VObj props) w = (Throw TypeError, w).
Proof.
  intros Hbad.
  destruct (stateless_renderRecipe (VObj props)) as [r Hr].
  rewrite Hr. f_equal. destruct r as [markup|e].
  - exfalso. specialize (Hr w). unfold renderRecipe in Hr.
    apply bind_returns in Hr. destruct Hr as (? & ? & _ & Hr).
    apply bind_returns in Hr. destruct Hr as (? & ? & _ & Hr).
    apply bind_returns in Hr. destruct Hr as (? & ? & _ & Hr).
    apply bind_returns in Hr. destruct Hr as (? & ? & _ & Hr).
    apply bind_returns in Hr. destruct Hr as (u & ? & Hu & Hr).
    apply bind_returns in Hr. destruct Hr as (? & ? & Hmu & Hr).
    apply bind_returns in Hr. destruct Hr as (s & ? & Hs & Hr).
    apply bind_returns in Hr. destruct Hr as (? & ? & Hms & _).
    cbn [lift Get ret] in Hu, Hs.
    injection Hu as <- _. injection Hs as <- _.
    destruct Hbad as [Hbad|Hbad].
    + destruct (own props "ingredients_used");
        try discriminate Hmu. now destruct (Hbad elems).
    + destruct (own props "steps");
        try discriminate Hms. now destruct (Hbad elems).
  - f_equal. apply (only_renderRecipe (VObj props) w). now rewrite Hr.
Qed.

Lemma renderRecipe_needs_both_lists_witness :
  renderRecipe
    (VObj [("title", VStr "Pancakes"); ("short_description", VStr "Fluffy.");
           ("ingredients_used", json_of_strings ["egg"])]) start
  = (Throw TypeError, start).
Proof.
  apply (renderRecipe_needs_both_lists
           [("title", VStr "Pancakes"); ("short_description", VStr "Fluffy.");
            ("ingredients_used", json_of_strings ["egg"])] start).
  right. intros l H. discriminate H.
Defined.

(* ================================================================== *)
(** * Elements that are not strings, and markup inside recipes *)
(* ================================================================== *)

Lemma mapM_pill_converted (elems : list value) (strs : list string)
      (w : World) :
  Forall2 (fun v s => ToString v = Ok s) elems strs ->
  mapM pill elems w = (Ok (map badge strs), w).
Proof.
  intros H. induction H as [|v s elems strs Hv _ IH]; [reflexivity|].
  cbn [mapM map]. unfold bind at 1. unfold pill at 1.
  unfold bind at 1. rewrite Hv. cbn [lift ret].
  unfold bind at 1. now rewrite IH.
Qed.

Lemma render_converted (props : list (string * value)) (elems : list value)
      (strs : list string) (recs : list Recipe) (w : World) :
  own props "ingredients" = VArr elems ->
  Forall2 (fun v s => ToString v = Ok s) elems strs ->
  own props "recipes" = VArr (map json_of_recipe recs) ->
  render (VObj props) w =
  (Ok tt, run_effects (rendering (mkAnalysis strs recs)) w).
Proof.
  intros Hi Hconv Hr. unfold render, rendering. cbn [ingredients recipes].
  unfold bind at 1. cbn [lift Get ret]. rewrite Hi.
  unfold bind at 1. cbn [lift Get ret]. rewrite Hr.
  rewrite run_effects_app.
  unfold bind at 1. cbn [lift Get String.eqb Ascii.eqb Bool.eqb ret].
  rewrite ToBoolean_length.
  assert (Hs : forall k : unit -> M unit,
             bind (if negb (Nat.eqb (List.length elems) 0)
                   then perform (ClassListRemove ingredientsSection "hidden") ;;
                        pills <- Array_map pill (VArr elems) ;;
                        perform (SetInnerHTML ingredientsList
                                              (Str.join_empty pills))
                   else ret tt) k w
             = k tt (run_effects (show_ingredients strs) w)).
  { intros k. destruct Hconv as [|v s elems strs Hv Hrest].
    - cbn [List.length Nat.eqb negb show_ingredients].
      now rewrite run_effects_nil.
    - cbn [List.length Nat.eqb negb show_ingredients].
      unfold bind at 1. rewrite bind_perform.
      unfold bind at 1. unfold Array_map.
      rewrite (mapM_pill_converted (v :: elems) (s :: strs));
        [|now constructor].
      rewrite perform_run, <- run_effects_app. reflexivity. }
  rewrite Hs. clear Hs.
  rewrite run_effects_app.
  unfold bind at 1. cbn [lift Get String.eqb Ascii.eqb Bool.eqb ret].
  rewrite ToBoolean_length, length_map.
  destruct recs as [|r recs].
  - cbn [List.length Nat.eqb negb show_recipes].
    unfold bind at 1. unfold ret at 1. rewrite run_effects_nil. reflexivity.
  - cbn [List.length Nat.eqb negb show_recipes].
    unfold bind at 1. rewrite bind_perform.
    unfold bind at 1. unfold Array_map. rewrite mapM_renderRecipe.
    rewrite perform_run, <- run_effects_app. reflexivity.
Qed.

(** X14.  The elements of [ingredients] need not be strings: each one
    goes through [ToString] into its badge, so that a body with numbers,
    booleans, [null] or nested arrays among its ingredients drives the
    same cycle as the response of the contract that holds their texts. *)
Theorem ingredient_elements_are_converted
        (file : File) (more : list File) (net : Network) (w : World)
        (res : Response) (props : list (string * value))
        (elems : list value) (strs : list string) (recs : list Recipe) :
  net "/analyze" (analyze_init file) = Fulfilled res ->
  json res = Ok (VObj props) ->
  own props "ingredients" = VArr elems ->
  Forall2 (fun v s => ToString v = Ok s) elems strs ->
  own props "recipes" = VArr (map json_of_recipe recs) ->
  on_submit (file :: more) net w =
  (Ok tt,
   run_effects (prologue file ++ rendering (mkAnalysis strs recs)) w).
Proof.
  intros Hnet Hjson Hi Hconv Hr.
  rewrite on_submit_selected, Hnet, Hjson.
  rewrite (render_converted props elems strs recs _ Hi Hconv Hr).
  rewrite (run_effects_app (prologue file)). reflexivity.
Qed.

Lemma ingredient_elements_are_converted_witness :
  innerHTML
    (page (snd (on_submit [photo]
       (answers 200
          (Ok (VObj [("ingredients",
                      VArr [VNum "2"; VNull; VArr [VStr "a"; VBool true]]);
                     ("recipes", VArr [])]))) start))) ingredientsList
  = badge "2" ++ badge "null" ++ badge "a,true".
Proof.
  rewrite (ingredient_elements_are_converted photo []
             (answers 200
                (Ok (VObj [("ingredients",
                            VArr [VNum "2"; VNull;
                                  VArr [VStr "a"; VBool true]]);
                           ("recipes", VArr [])]))) start
             (mkResponse 200
                (Ok (VObj [("ingredients",
                            VArr [VNum "2"; VNull;
                                  VArr [VStr "a"; VBool true]]);
                           ("recipes", VArr [])])))
             [("ingredients",
               VArr [VNum "2"; VNull; VArr [VStr "a"; VBool true]]);
              ("recipes", VArr [])]
             [VNum "2"; VNull; VArr [VStr "a"; VBool true]]
             ["2"; "null"; "a,true"] []
             eq_refl eq_refl eq_refl).
  - vm_compute. reflexivity.
  - repeat constructor.
  - reflexivity.
Defined.

Lemma occurs_in_trans (a b c : string) :
  Str.occurs_in a b -> Str.occurs_in b c -> Str.occurs_in a c.
Proof.
  intros (p & q & ->) (p' & q' & ->).
  exists (p' ++ p), (q ++ q'). now rewrite !append_assoc.
Qed.

Lemma card_shows_fields (r : Recipe) :
  Str.occurs_in (element "h3" (title r)) (card r) /\
  Str.occurs_in (element "p" (short_description r)) (card r) /\
  Str.occurs_in (items (ingredients_used r)) (card r) /\
  Str.occurs_in (items (steps r)) (card r).
Proof.
  destruct (card_reproduces r) as (s0 & s1 & s2 & s3 & s4 & E).
  rewrite E. unfold element, indented. repeat split.
  - eexists s0, _. reflexivity.
  - eexists (s0 ++ ("<" ++ "h3" ++ ">" ++ title r ++ "</" ++ "h3" ++ ">")
               ++ s1), _.
    repeat rewrite append_assoc. reflexivity.
  - eexists (s0 ++ ("<" ++ "h3" ++ ">" ++ title r ++ "</" ++ "h3" ++ ">")
               ++ s1
               ++ ("<" ++ "p" ++ ">" ++ short_description r
                       ++ "</" ++ "p" ++ ">")
               ++ s2 ++ "<" ++ "ul" ++ ">" ++ Str.newline ++ "        "), _.
    repeat rewrite append_assoc. reflexivity.
  - eexists (s0 ++ ("<" ++ "h3" ++ ">" ++ title r ++ "</" ++ "h3" ++ ">")
               ++ s1
               ++ ("<" ++ "p" ++ ">" ++ short_description r
                       ++ "</" ++ "p" ++ ">")
               ++ s2
               ++ ("<" ++ "ul" ++ ">"
                       ++ (Str.newline ++ "        "
                             ++ items (ingredients_used r)
                             ++ Str.newline ++ "      ")
                       ++ "</" ++ "ul" ++ ">")
               ++ s3 ++ "<" ++ "ol" ++ ">" ++ Str.newline ++ "        "), _.
    repeat rewrite append_assoc. reflexivity.
Qed.

(** X15.  The fields of a recipe go into the markup as they are, like
    the ingredients: for every recipe of the response, the markup
    assigned to the recipes list holds the title between the tags of the
    heading, the short description between those of the paragraph, and
    every ingredient used and every step between the tags of a list
    item, character for character. *)
Theorem recipe_fields_interpolated_verbatim
        (file : File) (more : list File) (net : Network) (w : World)
        (res : Response) (a : AnalysisResponse) (r : Recipe) :
  net "/analyze" (analyze_init file) = Fulfilled res ->
  json res = Ok (json_of_response a) ->
  In r (recipes a) ->
  Str.occurs_in ("<h3>" ++ title r ++ "</h3>")
    (innerHTML (page (snd (on_submit (file :: more) net w))) recipesList) /\
  Str.occurs_in ("<p>" ++ short_description r ++ "</p>")
    (innerHTML (page (snd (on_submit (file :: more) net w))) recipesList) /\
  (forall s, In s (ingredients_used r) ->
     Str.occurs_in ("<li>" ++ s ++ "</li>")
       (innerHTML (page (snd (on_submit (file :: more) net w)))
                  recipesList)) /\
  (forall s, In s (steps r) ->
     Str.occurs_in ("<li>" ++ s ++ "</li>")
       (innerHTML (page (snd (on_submit (file :: more) net w)))
                  recipesList)).
Proof.
  intros Hnet Hjson Hin. rewrite (cycle_contract _ _ _ _ _ _ Hnet Hjson).
  cbn [snd].
  destruct (page_after_rendering a (run_effects (prologue file) w))
    as (_ & _ & _ & _ & Hl).
  rewrite Hl. destruct (recipes a) as [|r0 recs] eqn:E; [contradiction|].
  assert (Hcard : Str.occurs_in (card r)
                    (Str.join_empty (map card (r0 :: recs)))).
  { apply in_split in Hin. destruct Hin as (l1 & l2 & Hs). rewrite Hs.
    exists (Str.join_empty (map card l1)), (Str.join_empty (map card l2)).
    now rewrite map_app, join_empty_app, map_cons, join_empty_cons. }
  destruct (card_shows_fields r) as (H1 & H2 & H3 & H4).
  repeat split.
  - exact (occurs_in_trans _ _ _ H1 Hcard).
  - exact (occurs_in_trans _ _ _ H2 Hcard).
  - intros s Hs.
    apply (occurs_in_trans _ (items (ingredients_used r))); [|
      exact (occurs_in_trans _ _ _ H3 Hcard)].
    exact (occurs_in_join (element "li") s _ Hs).
  - intros s Hs.
    apply (occurs_in_trans _ (items (steps r))); [|
      exact (occurs_in_trans _ _ _ H4 Hcard)].
    exact (occurs_in_join (element "li") s _ Hs).
Qed.

Lemma recipe_fields_interpolated_verbatim_witness :
  Str.occurs_in ("<h3>" ++ "<i>Pan</i>" ++ "</h3>")
    (innerHTML
       (page (snd (on_submit [photo]
          (answers 200
             (Ok (json_of_response
                    (mkAnalysis []
                       [mkRecipe "<i>Pan</i>" "Fluffy." ["egg"] ["Mix"]]))))
          start))) recipesList).
Proof.
  destruct (recipe_fields_interpolated_verbatim photo []
              (answers 200
                 (Ok (json_of_response
                        (mkAnalysis []
                           [mkRecipe "<i>Pan</i>" "Fluffy." ["egg"] ["Mix"]]))))
              start
              (mkResponse 200
                 (Ok (json_of_response
                        (mkAnalysis []
                           [mkRecipe "<i>Pan</i>" "Fluffy." ["egg"] ["Mix"]]))))
              (mkAnalysis [] [mkRecipe "<i>Pan</i>" "Fluffy." ["egg"] ["Mix"]])
              (mkRecipe "<i>Pan</i>" "Fluffy." ["egg"] ["Mix"])
              eq_refl eq_refl) as (H & _).
  - left. reflexivity.
  - exact H.
Defined.

(* ================================================================== *)
(** * Cycles one after the other, and cycles that overlap *)
(* ================================================================== *)

Lemma token_add_twice (tok : string) (l : list string) :
  token_add tok (token_add tok l) = token_add tok l.
Proof.
  unfold token_add at 1. now rewrite token_add_holds.
Qed.

Lemma token_remove_add_cycle (tok : string) (l : list string) :
  token_remove tok (token_add tok (token_remove tok (token_add tok l)))
  = token_remove tok (token_add tok l).
Proof.
  now rewrite (token_remove_add tok (token_remove tok (token_add tok l))),
    token_remove_twice.
Qed.

Lemma page_after_cycle (file : File) (a : AnalysisResponse) (w : World) :
  page (run_effects (rendering a) (run_effects (prologue file) w)) =
  mkPage Str.empty
    (match ingredients a with
     | [] => token_add "hidden" (ingredientsSection_classList (page w))
     | _ :: _ =>
         token_remove "hidden"
           (token_add "hidden" (ingredientsSection_classList (page w)))
     end)
    (match ingredients a with
     | [] => ingredientsList_innerHTML (page w)
     | _ :: _ => Str.join_empty (map badge (ingredients a))
     end)
    (match recipes a with
     | [] => token_add "hidden" (recipesSection_classList (page w))
     | _ :: _ =>
         token_remove "hidden"
           (token_add "hidden" (recipesSection_classList (page w)))
     end)
    (match recipes a with
     | [] => recipesList_innerHTML (page w)
     | _ :: _ => Str.join_empty (map card (recipes a))
     end).
Proof.
  destruct w as [[st ic ih rc rh] l]. destruct a as [ings recs].
  destruct ings as [|i ings]; destruct recs as [|r recs]; reflexivity.
Qed.

(** X16.  A cycle is idempotent on the page: submitting again, with the
    same response of the contract coming back, leaves the page exactly
    as the first cycle left it, class lists included. *)
Theorem same_response_twice_same_page
        (file : File) (more : list File) (net : Network) (w : World)
        (res : Response) (a : AnalysisResponse) :
  net "/analyze" (analyze_init file) = Fulfilled res ->
  json res = Ok (json_of_response a) ->
  page (snd (on_submit (file :: more) net
               (snd (on_submit (file :: more) net w))))
  = page (snd (on_submit (file :: more) net w)).
Proof.
  intros Hnet Hjson.
  rewrite (cycle_contract _ _ _ _ _ _ Hnet Hjson).
  rewrite (cycle_contract _ _ _ w _ _ Hnet Hjson).
  cbn [snd]. rewrite (page_after_cycle file a (run_effects _ _)).
  rewrite (page_after_cycle file a w).
  cbn [ingredientsSection_classList ingredientsList_innerHTML
       recipesSection_classList recipesList_innerHTML].
  destruct (ingredients a), (recipes a);
    now rewrite ?token_add_twice, ?token_remove_add_cycle.
Qed.

Lemma same_response_twice_same_page_witness :
  page (snd (on_submit [photo]
               (answers 200 (Ok (json_of_response eggs_and_flour)))
               (snd (on_submit [photo]
                       (answers 200 (Ok (json_of_response eggs_and_flour)))
                       start))))
  = page (snd (on_submit [photo]
                 (answers 200 (Ok (json_of_response eggs_and_flour)))
                 start)).
Proof.
  apply (same_response_twice_same_page photo []
           (answers 200 (Ok (json_of_response eggs_and_flour))) start
           (mkResponse 200 (Ok (json_of_response eggs_and_flour)))
           eggs_and_flour eq_refl eq_refl).
Defined.

Lemma submit_begin_prologue (file : File) (w : World) :
  submit_begin file w = (Ok tt, run_effects (prologue file) w).
Proof.
  unfold submit_begin. rewrite !bind_perform, perform_run.
  now rewrite <- !run_effects_app.
Qed.

(** The handler is its first phase, then the settling of the request,
    then the rendering of the parsed body. *)
Lemma on_submit_phases (file : File) (more : list File) (net : Network)
      (w : World) :
  on_submit (file :: more) net w =
  (submit_begin file ;;
   match net "/analyze" (analyze_init file) with
   | Rejected reason => throw reason
   | Fulfilled res => data <- lift (json res) ;; render data
   end) w.
Proof.
  rewrite on_submit_selected. unfold bind at 1.
  rewrite submit_begin_prologue.
  destruct (net "/analyze" (analyze_init file)) as [reason|res];
    [reflexivity|].
  unfold bind at 1. destruct (json res) as [data|e]; reflexivity.
Qed.

(** X17.  Nothing ties a response to the latest submission.  When a
    second submission is made while the first request is out, and the
    first body is the last to be parsed, the page ends with the lists of
    the first, older response wherever they are not empty, and with a
    list of the second response where the first has none: the two lists
    on the page may come from two different responses. *)
Theorem overlapping_cycles_last_parsed_wins
        (file1 file2 : File) (a1 a2 : AnalysisResponse) (w : World) :
  fst (overlapped file1 file2 (json_of_response a1) (json_of_response a2) w)
  = Ok tt /\
  innerHTML
    (page (snd (overlapped file1 file2 (json_of_response a1)
                           (json_of_response a2) w))) ingredientsList
  = match ingredients a1, ingredients a2 with
    | _ :: _, _ => Str.join_empty (map badge (ingredients a1))
    | [], _ :: _ => Str.join_empty (map badge (ingredients a2))
    | [], [] => innerHTML (page w) ingredientsList
    end /\
  innerHTML
    (page (snd (overlapped file1 file2 (json_of_response a1)
                           (json_of_response a2) w))) recipesList
  = match recipes a1, recipes a2 with
    | _ :: _, _ => Str.join_empty (map card (recipes a1))
    | [], _ :: _ => Str.join_empty (map card (recipes a2))
    | [], [] => innerHTML (page w) recipesList
    end /\
  hidden
    (page (snd (overlapped file1 file2 (json_of_response a1)
                           (json_of_response a2) w))) ingredientsSection
  = match ingredients a1, ingredients a2 with
    | [], [] => true
    | _, _ => false
    end /\
  hidden
    (page (snd (overlapped file1 file2 (json_of_response a1)
                           (json_of_response a2) w))) recipesSection
  = match recipes a1, recipes a2 with
    | [], [] => true
    | _, _ => false
    end /\
  statusDiv_textContent
    (page (snd (overlapped file1 file2 (json_of_response a1)
                           (json_of_response a2) w))) = Str.empty.
Proof.
  assert (E : overlapped file1 file2 (json_of_response a1)
                         (json_of_response a2) w
              = (Ok tt,
                 run_effects (rendering a1)
                   (run_effects (rendering a2)
                      (run_effects (prologue file2)
                         (run_effects (prologue file1) w))))).
  { unfold overlapped. unfold bind at 1. rewrite submit_begin_prologue.
    unfold bind at 1. rewrite submit_begin_prologue.
    unfold bind at 1. unfold detached at 1. rewrite render_contract.
    cbn [snd]. unfold detached. now rewrite render_contract. }
  rewrite E. cbn [fst snd]. split; [reflexivity|].
  destruct (page_after_rendering a1
              (run_effects (rendering a2)
                 (run_effects (prologue file2)
                    (run_effects (prologue file1) w))))
    as (Hs & Hih & Hil & Hrh & Hrl).
  destruct (page_after_rendering a2
              (run_effects (prologue file2)
                 (run_effects (prologue file1) w)))
    as (_ & Hih2 & Hil2 & Hrh2 & Hrl2).
  rewrite page_after_prologue in Hih2, Hil2, Hrh2, Hrl2.
  destruct (page_before_fetch (run_effects (prologue file1) w))
    as (_ & Hi & Hr & Hli & Hlr).
  rewrite page_after_prologue in Hli, Hlr.
  destruct (page_before_fetch w) as (_ & _ & _ & Hli0 & Hlr0).
  rewrite Hs, Hih, Hil, Hrh, Hrl.
  destruct (ingredients a1), (ingredients a2), (recipes a1), (recipes a2);
    repeat split; congruence.
Qed.
